(** * Metrics agents of the overview dashboard: normalisation and severity

    A shallow embedding of the decision logic of the three agents

    - [scripts/linux_agent/get_system_metrics.py]       (module [Linux]),
    - [scripts/checkpoint_fw_agent/get_checkpoint_metrics.py] (module [Checkpoint]),
    - [scripts/ocp/monitor_ocp.py]                      (module [Ocp]),

    followed by the properties of the specification that concern them.

    Conventions of the embedding.

    - Python [str] is Rocq's [string]; a character is a code point below 256,
      so the text covered is the Latin-1 part of Python's strings.  The
      predicates [is_space] and [lower_char] are Python's [str.isspace] and
      [str.lower] on that range.
    - Python [float] is [pyfloat]: the finite values are rationals (every
      finite double is one, and Python compares a float with an int exactly),
      together with the two infinities and NaN, which [float(text)] can
      produce.
    - Python [int] is [Z].
    - The probes (subprocesses, the HTTP client, the host name) are inputs of
      the functions that consume their results. *)

From Stdlib Require Import QArith Ascii String.
From stdpp Require Import gmap strings pretty list.

(** ** Python text *)

Module PyStr.

Definition nl : ascii := "010"%char.

(** [str.isspace] for one code point below 256; it is also the class [\s] of
    the [re] module on [str] patterns. *)
Definition is_space (c : ascii) : bool :=
  let n := nat_of_ascii c in
  (((9 <=? n) && (n <=? 13)) || ((28 <=? n) && (n <=? 32))
   || (n =? 133) || (n =? 160))%nat.

(** [str.lower] for one code point below 256. *)
Definition lower_char (c : ascii) : ascii :=
  let n := nat_of_ascii c in
  if (((65 <=? n) && (n <=? 90))
      || ((192 <=? n) && (n <=? 222) && negb (n =? 215)))%nat
  then ascii_of_nat (n + 32) else c.

Fixpoint lower (s : string) : string :=
  match s with
  | "" => ""
  | String c s' => String (lower_char c) (lower s')
  end.

(** [s.lstrip()], [s.rstrip()], [s.strip()] *)
Fixpoint lstrip (s : string) : string :=
  match s with
  | "" => ""
  | String c s' => if is_space c then lstrip s' else s
  end.

Fixpoint rstrip (s : string) : string :=
  match s with
  | "" => ""
  | String c s' =>
      match rstrip s' with
      | "" => if is_space c then "" else String c ""
      | r => String c r
      end
  end.

Definition strip (s : string) : string := rstrip (lstrip s).

(** [s.startswith(p)] *)
Fixpoint startswith (s p : string) : bool :=
  match p, s with
  | "", _ => true
  | String _ _, "" => false
  | String a p', String b s' => if Ascii.eqb a b then startswith s' p' else false
  end.

(** [s.endswith(c)] for a one-character suffix *)
Fixpoint endswith_char (s : string) (c : ascii) : bool :=
  match s with
  | "" => false
  | String a "" => Ascii.eqb a c
  | String _ s' => endswith_char s' c
  end.

(** [s[:-1]] *)
Fixpoint drop_last (s : string) : string :=
  match s with
  | "" => ""
  | String _ "" => ""
  | String a s' => String a (drop_last s')
  end.

(** [sep.join(l)] *)
Fixpoint join (sep : string) (l : list string) : string :=
  match l with
  | [] => ""
  | [x] => x
  | x :: l' => x +:+ sep +:+ join sep l'
  end.

(** [s.split(c)] for a one-character separator *)
Fixpoint split_char (c : ascii) (s : string) : list string :=
  match s with
  | "" => [""]
  | String a s' =>
      if Ascii.eqb a c then "" :: split_char c s'
      else match split_char c s' with
           | b :: bs => String a b :: bs
           | [] => [String a ""]
           end
  end.

(** The first element of [s.split()], the split on runs of white space,
    when that list is not empty. *)
Fixpoint take_token (s : string) : string :=
  match s with
  | "" => ""
  | String c s' => if is_space c then "" else String c (take_token s')
  end.

Definition first_token (s : string) : option string :=
  match lstrip s with
  | "" => None
  | t => Some (take_token t)
  end.

(** The rest of [s] after the prefix [p], when [s] starts with [p]. *)
Fixpoint after_prefix (p s : string) : option string :=
  match p, s with
  | "", _ => Some s
  | String _ _, "" => None
  | String a p', String b s' =>
      if Ascii.eqb a b then after_prefix p' s' else None
  end.

(** [s.split('\n\n')]: the separator is looked for from the left, and the
    scan resumes after each occurrence. *)
Definition cons_head (c : ascii) (blocks : list string) : list string :=
  match blocks with
  | b :: bs => String c b :: bs
  | [] => [String c ""]
  end.

Fixpoint split_nlnl (s : string) : list string :=
  match s with
  | "" => [""]
  | String c s' =>
      match s' with
      | String c' s'' =>
          if Ascii.eqb c nl && Ascii.eqb c' nl then "" :: split_nlnl s''
          else cons_head c (split_nlnl s')
      | "" => cons_head c (split_nlnl s')
      end
  end.

(** ** The two regular expressions of the appliance agent

    [re.search(lit + r'\s*(.+)', s)] for a literal [lit]: the left-most
    position where the literal occurs and the rest matches; [\s*] is greedy
    and gives characters back on failure; [.] is any character but the line
    feed.  The result is group 1. *)
Fixpoint dot_star (s : string) : string :=
  match s with
  | "" => ""
  | String c s' => if Ascii.eqb c nl then "" else String c (dot_star s')
  end.

Definition dot_plus (s : string) : option string :=
  match dot_star s with
  | "" => None
  | g => Some g
  end.

Fixpoint spaces_then_group (s : string) : option string :=
  match s with
  | "" => None
  | String c s' =>
      if is_space c then
        match spaces_then_group s' with
        | Some g => Some g
        | None => dot_plus s
        end
      else dot_plus s
  end.

Definition match_here (lit s : string) : option string :=
  match after_prefix lit s with
  | Some rest => spaces_then_group rest
  | None => None
  end.

Fixpoint re_search (lit s : string) : option string :=
  match match_here lit s with
  | Some g => Some g
  | None =>
      match s with
      | "" => None
      | String _ s' => re_search lit s'
      end
  end.

(** The separator of device blocks, and the characters of a string. *)
Definition blank : string := String nl (String nl "").

Fixpoint chars (s : string) : list ascii :=
  match s with
  | "" => []
  | String c s' => c :: chars s'
  end.

(** [sub in s] *)
Definition occurs (sub s : string) : Prop :=
  exists pre post, s = pre +:+ sub +:+ post.

(** Whether two line feeds in a row occur in a string. *)
Fixpoint has_blank (s : string) : bool :=
  match s with
  | "" => false
  | String c s' =>
      match s' with
      | "" => false
      | String c' _ => (Ascii.eqb c nl && Ascii.eqb c' nl)
                       || has_blank s'
      end
  end.

(** [s.split()]: the pieces between runs of white space. *)
Fixpoint split_ws (s : string) : list string :=
  match s with
  | "" => []
  | String c s' =>
      if is_space c then split_ws s'
      else match s' with
           | "" => [String c ""]
           | String c' _ =>
               if is_space c' then String c "" :: split_ws s'
               else cons_head c (split_ws s')
           end
  end.

(** [sub in s] as a test *)
Fixpoint contains (s sub : string) : bool :=
  match after_prefix sub s with
  | Some _ => true
  | None =>
      match s with
      | "" => false
      | String _ s' => contains s' sub
      end
  end.

(** [s.rstrip(c)] for a one-character set *)
Fixpoint rstrip_char (c : ascii) (s : string) : string :=
  match s with
  | "" => ""
  | String a s' =>
      match rstrip_char c s' with
      | "" => if Ascii.eqb a c then "" else String a ""
      | r => String a r
      end
  end.

(** Truth value of a list and of a string in a condition. *)
Definition nonempty {A} (l : list A) : bool :=
  match l with [] => false | _ :: _ => true end.

Definition nonempty_str (s : string) : bool :=
  match s with "" => false | String _ _ => true end.

End PyStr.

(** ** Python values of a wire body, and [json.dumps] *)

#[warnings="-register-all"]
Inductive pyval : Type :=
| VNone
| VStr (s : string)
| VDict (items : list (string * pyval)).

(** [d.get(k)] on a dict kept in insertion order; [d[k]] raises [KeyError]
    where this is [None]. *)
Fixpoint dict_get {A} (d : list (string * A)) (k : string) : option A :=
  match d with
  | [] => None
  | (k', v) :: d' => if bool_decide (k' = k) then Some v else dict_get d' k
  end.

Module Json.
Import PyStr.

Definition dquote : ascii := "034"%char.
Definition backslash : ascii := "092"%char.

Definition hex_digit (n : nat) : ascii :=
  match String.get n "0123456789abcdef" with
  | Some c => c
  | None => "0"%char
  end.

(** One character of a string under [ensure_ascii=True]. *)
Definition escape_char (c : ascii) : string :=
  let n := nat_of_ascii c in
  if (n =? 34)%nat then String backslash (String dquote "")
  else if (n =? 92)%nat then "\\"
  else if (n =? 8)%nat then "\b"
  else if (n =? 12)%nat then "\f"
  else if (n =? 10)%nat then "\n"
  else if (n =? 13)%nat then "\r"
  else if (n =? 9)%nat then "\t"
  else if ((32 <=? n) && (n <=? 126))%nat then String c ""
  else "\u00" +:+ String (hex_digit (n / 16)) (String (hex_digit (n mod 16)) "").

Fixpoint escape (s : string) : string :=
  match s with
  | "" => ""
  | String c s' => escape_char c +:+ escape s'
  end.

Definition quoted (s : string) : string :=
  String dquote (escape s) +:+ String dquote "".

(** [json.dumps(v)] with the default separators. *)
Fixpoint dumps (v : pyval) : string :=
  match v with
  | VNone => "null"
  | VStr s => quoted s
  | VDict items =>
      "{" +:+ join ", " (map (fun kv => quoted (fst kv) +:+ ": " +:+ dumps (snd kv))
                             items) +:+ "}"
  end.

End Json.

(** ** The envelope of the specification

    [{"projectName": string, "systemName": string, "payload": O}] with [O]
    an object that has string fields [Id] and [Name] and a [Severity] among
    ok, warning, error. *)
Definition body_get (v : pyval) (k : string) : option pyval :=
  match v with
  | VDict items => dict_get items k
  | _ => None
  end.

Definition is_str (v : option pyval) : bool :=
  match v with
  | Some (VStr _) => true
  | _ => false
  end.

Definition is_severity_str (v : option pyval) : bool :=
  match v with
  | Some (VStr s) => bool_decide (s ∈ ["ok"; "warning"; "error"])
  | _ => false
  end.

Definition is_payload_object (v : option pyval) : bool :=
  match v with
  | Some (VDict items) =>
      is_str (dict_get items "Id") && is_str (dict_get items "Name")
      && is_severity_str (dict_get items "Severity")
  | _ => false
  end.

Definition is_envelope (body : pyval) : bool :=
  match body with
  | VDict items =>
      (length items =? 3)%nat
      && is_str (dict_get items "projectName")
      && is_str (dict_get items "systemName")
      && is_payload_object (dict_get items "payload")
  | _ => false
  end.

(** A field of the record bound to [payload]. *)
Definition payload_field (body : pyval) (k : string) : option pyval :=
  match body_get body "payload" with
  | Some record => body_get record k
  | None => None
  end.

(** ** Python floats, as far as comparisons go *)

Inductive pyfloat : Type :=
| NaN
| NegInf
| Finite (q : Q)
| PosInf.

(** [x >= t] for a float [x] and an int [t] *)
Definition ge_int (x : pyfloat) (t : Z) : bool :=
  match x with
  | NaN => false
  | NegInf => false
  | Finite q => Qle_bool (inject_Z t) q
  | PosInf => true
  end.

(** [a <= b] on floats *)
Definition float_le (a b : pyfloat) : bool :=
  match a, b with
  | NaN, _ | _, NaN => false
  | NegInf, _ => true
  | _, PosInf => true
  | Finite p, Finite q => Qle_bool p q
  | _, _ => false
  end.

(** [a > b] on floats, and [max(l)] of a list that is not empty: the first
    element, replaced by each later one that is greater than it. *)
Definition float_gt (a b : pyfloat) : bool :=
  match a, b with
  | NaN, _ | _, NaN => false
  | PosInf, PosInf => false
  | PosInf, _ => true
  | _, NegInf => match a with NegInf => false | _ => true end
  | Finite p, Finite q => negb (Qle_bool p q)
  | _, _ => false
  end.

Definition py_max (first : pyfloat) (rest : list pyfloat) : pyfloat :=
  fold_left (fun max_item item => if float_gt item max_item then item else max_item)
            rest first.

(** ** The ordinal severity of the specification *)

Inductive Severity : Type := SevOk | SevWarning | SevError.

Definition severity_name (s : Severity) : string :=
  match s with
  | SevOk => "ok"
  | SevWarning => "warning"
  | SevError => "error"
  end.

Definition severity_rank (s : Severity) : nat :=
  match s with
  | SevOk => 0
  | SevWarning => 1
  | SevError => 2
  end.

Definition sev_max (a b : Severity) : Severity :=
  if (severity_rank a <? severity_rank b)%nat then b else a.

Definition sev_leb (a b : Severity) : bool :=
  (severity_rank a <=? severity_rank b)%nat.

(** [max(ok, r_1, r_2, ...)] *)
Definition max_of (rules : list Severity) : Severity :=
  fold_left sev_max rules SevOk.

(** The severity a wire string stands for, and the order on such strings. *)
Definition severity_of_name (s : string) : option Severity :=
  if bool_decide (s = "ok") then Some SevOk
  else if bool_decide (s = "warning") then Some SevWarning
  else if bool_decide (s = "error") then Some SevError
  else None.

Definition severity_leb (a b : string) : bool :=
  match severity_of_name a, severity_of_name b with
  | Some x, Some y => sev_leb x y
  | _, _ => false
  end.

(** The two-threshold rule of the specification, and the presence rule. *)
Definition rule_threshold (x : pyfloat) (warning_threshold error_threshold : Z)
  : Severity :=
  if ge_int x error_threshold then SevError
  else if ge_int x warning_threshold then SevWarning
  else SevOk.

Definition rule_presence {A} (l : list A) : Severity :=
  match l with [] => SevOk | _ :: _ => SevError end.

(** ** The Linux host agent *)

Module Linux.
Import PyStr.

Record DiskEntry : Type := {
  device : string;
  mount_point : string;
  used_percent : pyfloat
}.

(** [calculate_severity]: the running value [severity] is reassigned rule
    after rule. *)
Definition calculate_severity
    (cpu_usage memory_usage : pyfloat) (disks : list DiskEntry)
    (failed_services : list string)
    (warning_threshold error_threshold : Z) : string :=
  let severity := "ok" in
  (* Check CPU *)
  let severity :=
    if ge_int cpu_usage error_threshold then "error"
    else if ge_int cpu_usage warning_threshold
            && bool_decide (severity ≠ "error") then "warning"
    else severity in
  (* Check Memory *)
  let severity :=
    if ge_int memory_usage error_threshold then "error"
    else if ge_int memory_usage warning_threshold
            && bool_decide (severity ≠ "error") then "warning"
    else severity in
  (* Check Disks *)
  let severity :=
    fold_left
      (fun severity disk =>
         if ge_int (used_percent disk) error_threshold then "error"
         else if ge_int (used_percent disk) warning_threshold
                 && bool_decide (severity ≠ "error") then "warning"
         else severity)
      disks severity in
  (* Check Services *)
  let severity := if nonempty failed_services then "error" else severity in
  severity.

(** The rules of the specification, one by one: CPU, memory, one entry per
    disk, services. *)
Definition rules
    (cpu_usage memory_usage : pyfloat) (disks : list DiskEntry)
    (failed_services : list string)
    (warning_threshold error_threshold : Z) : list Severity :=
  [rule_threshold cpu_usage warning_threshold error_threshold;
   rule_threshold memory_usage warning_threshold error_threshold]
  ++ map (fun d => rule_threshold (used_percent d)
                                  warning_threshold error_threshold) disks
  ++ [rule_presence failed_services].

(** The inputs of the classifier as one record, and the ways one of them is
    raised: a larger CPU, memory or disk value, one more disk, one more
    failed service. *)
Record Metrics : Type := {
  m_cpu : pyfloat;
  m_memory : pyfloat;
  m_disks : list DiskEntry;
  m_services : list string
}.

Definition severity_of (m : Metrics) (warning_threshold error_threshold : Z)
  : string :=
  calculate_severity (m_cpu m) (m_memory m) (m_disks m) (m_services m)
    warning_threshold error_threshold.

Inductive raised : Metrics -> Metrics -> Prop :=
| raise_cpu c c' m d f :
    float_le c c' = true ->
    raised {| m_cpu := c; m_memory := m; m_disks := d; m_services := f |}
           {| m_cpu := c'; m_memory := m; m_disks := d; m_services := f |}
| raise_memory c m m' d f :
    float_le m m' = true ->
    raised {| m_cpu := c; m_memory := m; m_disks := d; m_services := f |}
           {| m_cpu := c; m_memory := m'; m_disks := d; m_services := f |}
| raise_disk c m d1 dev mnt p p' d2 f :
    float_le p p' = true ->
    raised {| m_cpu := c; m_memory := m;
              m_disks := d1 ++ {| device := dev; mount_point := mnt;
                                  used_percent := p |} :: d2;
              m_services := f |}
           {| m_cpu := c; m_memory := m;
              m_disks := d1 ++ {| device := dev; mount_point := mnt;
                                  used_percent := p' |} :: d2;
              m_services := f |}
| add_disk c m d1 disk d2 f :
    raised {| m_cpu := c; m_memory := m; m_disks := d1 ++ d2;
              m_services := f |}
           {| m_cpu := c; m_memory := m; m_disks := d1 ++ disk :: d2;
              m_services := f |}
| add_service c m d f1 s f2 :
    raised {| m_cpu := c; m_memory := m; m_disks := d;
              m_services := f1 ++ f2 |}
           {| m_cpu := c; m_memory := m; m_disks := d;
              m_services := f1 ++ s :: f2 |}.

(** [DEFAULT_IGNORE_SERVICES] *)
Definition DEFAULT_IGNORE_SERVICES : list string :=
  ["snapd.refresh.timer"; "apt-daily.timer"; "apt-daily-upgrade.timer";
   "motd-news.timer"; "fstrim.timer"; "anacron.timer"; "man-db.timer";
   "logrotate.timer"].

(** The inner loop of [get_failed_services] over the ignore list, with its
    [break]. *)
Fixpoint should_ignore (ignore_list : list string) (service_name : string)
  : bool :=
  match ignore_list with
  | [] => false
  | pattern :: rest =>
      if endswith_char pattern "*" then
        if startswith service_name (drop_last pattern) then true
        else should_ignore rest service_name
      else if bool_decide (pattern = service_name) then true
      else should_ignore rest service_name
  end.

(** The match relation in the words of the specification: a pattern ending
    in [*] matches the names that start with the pattern minus that [*]; any
    other pattern matches the name equal to it. *)
Definition ignore_matches (pattern unit_name : string) : Prop :=
  (exists stem, pattern = stem +:+ "*"
                /\ exists rest, unit_name = stem +:+ rest)
  \/ ((forall stem, pattern ≠ stem +:+ "*") /\ pattern = unit_name).

(** [get_failed_services]: [probe] is the standard output of the service
    manager, or [None] when running it raised. *)
Definition get_failed_services
    (probe : option string) (ignore_list : option (list string))
  : list string :=
  let ignore_list := default DEFAULT_IGNORE_SERVICES ignore_list in
  let failed_services := [] in
  match probe with
  | Some stdout =>
      fold_left
        (fun failed_services line =>
           if nonempty_str line then
             match first_token line with
             | Some service_name =>
                 if negb (should_ignore ignore_list service_name)
                 then failed_services ++ [service_name]
                 else failed_services
             | None => failed_services
             end
           else failed_services)
        (split_char nl (strip stdout)) failed_services
  | None => failed_services
  end.

(** The unit names the service manager reported, in its order. *)
Definition reported_units (stdout : string) : list string :=
  omap first_token (split_char nl (strip stdout)).

(** [exclude_types] and [exclude_mounts] of [get_disk_usage] *)
Definition exclude_types : list string :=
  ["tmpfs"; "devtmpfs"; "squashfs"; "overlay"; "aufs"; "proc"; "sysfs";
   "devpts"; "cgroup"; "cgroup2"; "securityfs"; "pstore"; "debugfs";
   "hugetlbfs"; "mqueue"; "fusectl"; "configfs"; "binfmt_misc"; "autofs";
   "efivarfs"; "tracefs"].

Definition exclude_mounts : list string := ["/boot/efi"; "/snap"].

Section Disks.

(** [float(text)]: the number, or [None] where it raises [ValueError]. *)
Variable parse_float : string -> option pyfloat.

(** [get_disk_usage]: [probe] is the standard output of [df -PT], or [None]
    when running it raised. *)
Definition get_disk_usage (probe : option string) : list DiskEntry :=
  let disks := [] in
  match probe with
  | Some stdout =>
      let lines := split_char nl (strip stdout) in
      fold_left
        (fun disks line =>
           let parts := split_ws line in
           if (7 <=? length parts)%nat then
             match parts !! 0%nat, parts !! 1%nat, parts !! 6%nat,
                   parts !! 5%nat with
             | Some filesystem, Some fs_type, Some mount_point, Some percent =>
                 let used_percent_str := rstrip_char "%" percent in
                 if bool_decide (fs_type ∈ exclude_types) then disks
                 else if existsb (startswith mount_point) exclude_mounts
                 then disks
                 else if negb (startswith filesystem "/") then disks
                 else
                   match parse_float used_percent_str with
                   | Some used_percent =>
                       disks ++ [{| device := filesystem;
                                    mount_point := mount_point;
                                    used_percent := used_percent |}]
                   | None => disks
                   end
             | _, _, _, _ => disks
             end
           else disks)
        (drop 1 lines) disks
  | None => disks
  end.

End Disks.

Section Stopped.

(** The order in which a [set] built by adding the given names one after the
    other is iterated, and what [systemctl is-active] prints for a unit
    ([None] when running it raises, as on a timeout). *)
Variable set_order : list string -> list string.
Variable is_active : string -> option string.

(** The second loop of [get_stopped_automatic_services]; an exception leaves
    it for the handler, which keeps what has been collected. *)
Fixpoint check_enabled (ignore_list : list string) (services : list string)
    (stopped_services : list string) : list string :=
  match services with
  | [] => stopped_services
  | service :: rest =>
      if should_ignore ignore_list service
      then check_enabled ignore_list rest stopped_services
      else
        match is_active service with
        | Some stdout =>
            if bool_decide (strip stdout ∉ ["active"; "activating"])
            then check_enabled ignore_list rest (stopped_services ++ [service])
            else check_enabled ignore_list rest stopped_services
        | None => stopped_services
        end
  end.

(** The first loop of [get_stopped_automatic_services]: the names added to
    the set, in the order of the listing. *)
Definition added_units (stdout : string) : list string :=
  fold_left
    (fun added line =>
       if nonempty_str line then
         match split_ws line with
         | first :: _ => added ++ [first]
         | [] => added
         end
       else added)
    (split_char nl (strip stdout)) [].

(** [get_stopped_automatic_services]: [probe] is the standard output of the
    listing of enabled unit files, or [None] when running it raised. *)
Definition get_stopped_automatic_services
    (probe : option string) (ignore_list : option (list string))
  : list string :=
  let ignore_list := default DEFAULT_IGNORE_SERVICES ignore_list in
  let stopped_services := [] in
  match probe with
  | Some stdout =>
      let enabled_services := set_order (added_units stdout) in
      check_enabled ignore_list enabled_services stopped_services
  | None => stopped_services
  end.

End Stopped.

Section Payload.

(** [str(x)] of a float and the host name are the interpreter's and the
    operating system's. *)
Variable float_str : pyfloat -> string.
Variable hostname : string.

(** [format_disks_string] *)
Definition format_disks_string (disks : list DiskEntry) : string :=
  if negb (nonempty disks) then "No disks found"
  else
    join ", "
      (map (fun disk =>
              mount_point disk +:+ " (" +:+ float_str (used_percent disk) +:+ "%)")
           disks).

(** [format_services_string] *)
Definition format_services_string (failed_services : list string) : string :=
  if nonempty failed_services then "Down: " +:+ join ", " failed_services
  else "All Enabled Services Running".

(** [build_payload] *)
Definition build_payload
    (cpu_usage memory_usage : pyfloat) (disks : list DiskEntry)
    (failed_services : list string) (severity : string)
    (project_name system_name : string) : pyval :=
  VDict
    [("projectName", VStr project_name);
     ("systemName", VStr system_name);
     ("payload",
      VDict
        [("Id", VStr hostname);
         ("Name", VStr hostname);
         ("CPU", VStr (float_str cpu_usage +:+ "%"));
         ("Memory", VStr (float_str memory_usage +:+ "%"));
         ("Disks", VStr (format_disks_string disks));
         ("Services", VStr (format_services_string failed_services));
         ("Severity", VStr severity)])].

(** [main], from the collected metrics to the payload that is printed or
    posted. *)
Definition main
    (cpu_usage memory_usage : pyfloat) (disks : list DiskEntry)
    (all_problem_services : list string)
    (threshold_warning threshold_error : Z)
    (project_name system_name : string) : pyval :=
  let severity :=
    calculate_severity cpu_usage memory_usage disks all_problem_services
      threshold_warning threshold_error in
  build_payload cpu_usage memory_usage disks all_problem_services severity
    project_name system_name.

End Payload.

End Linux.

(** ** The firewall appliance agent *)

Module Checkpoint.
Import PyStr.

(** [calculate_severity] *)
Definition calculate_severity
    (cpu_usage max_cpu_usage memory_usage : pyfloat) (cluster_state : string)
    (errors heavy_connections : list string)
    (warning_threshold error_threshold : Z) : string :=
  let severity := "ok" in
  (* Check CPU (Average or Max) *)
  let severity :=
    if ge_int cpu_usage error_threshold || ge_int max_cpu_usage error_threshold
    then "error"
    else if (ge_int cpu_usage warning_threshold
             || ge_int max_cpu_usage warning_threshold)
            && bool_decide (severity ≠ "error") then "warning"
    else severity in
  (* Check Memory *)
  let severity :=
    if ge_int memory_usage error_threshold then "error"
    else if ge_int memory_usage warning_threshold
            && bool_decide (severity ≠ "error") then "warning"
    else severity in
  (* Check Cluster State (Down is bad) *)
  let severity :=
    if bool_decide (lower cluster_state ∈ ["down"; "problem"; "error"; "unknown"])
    then "error" else severity in
  (* Check Errors *)
  let severity := if nonempty errors then "error" else severity in
  (* Check Heavy Connections *)
  let severity := if nonempty heavy_connections then "error" else severity in
  severity.

(** The rules of the specification, one by one: CPU (average or maximum),
    memory, cluster role, device errors, heavy connections. *)
Definition rule_cpu (avg mx : pyfloat) (warning_threshold error_threshold : Z)
  : Severity :=
  if ge_int avg error_threshold || ge_int mx error_threshold then SevError
  else if ge_int avg warning_threshold || ge_int mx warning_threshold
  then SevWarning
  else SevOk.

Definition rule_cluster_role (cluster_state : string) : Severity :=
  if bool_decide (lower cluster_state ∈ ["down"; "problem"; "error"; "unknown"])
  then SevError else SevOk.

Definition rules
    (cpu_usage max_cpu_usage memory_usage : pyfloat) (cluster_state : string)
    (errors heavy_connections : list string)
    (warning_threshold error_threshold : Z) : list Severity :=
  [rule_cpu cpu_usage max_cpu_usage warning_threshold error_threshold;
   rule_threshold memory_usage warning_threshold error_threshold;
   rule_cluster_role cluster_state;
   rule_presence errors;
   rule_presence heavy_connections].

(** The inputs of the classifier as one record, and the ways one of them is
    raised. *)
Record Metrics : Type := {
  m_cpu : pyfloat;
  m_max_cpu : pyfloat;
  m_memory : pyfloat;
  m_cluster_state : string;
  m_errors : list string;
  m_heavy : list string
}.

Definition severity_of (m : Metrics) (warning_threshold error_threshold : Z)
  : string :=
  calculate_severity (m_cpu m) (m_max_cpu m) (m_memory m) (m_cluster_state m)
    (m_errors m) (m_heavy m) warning_threshold error_threshold.

Inductive raised : Metrics -> Metrics -> Prop :=
| raise_cpu c c' x m st er hv :
    float_le c c' = true ->
    raised {| m_cpu := c; m_max_cpu := x; m_memory := m;
              m_cluster_state := st; m_errors := er; m_heavy := hv |}
           {| m_cpu := c'; m_max_cpu := x; m_memory := m;
              m_cluster_state := st; m_errors := er; m_heavy := hv |}
| raise_max_cpu c x x' m st er hv :
    float_le x x' = true ->
    raised {| m_cpu := c; m_max_cpu := x; m_memory := m;
              m_cluster_state := st; m_errors := er; m_heavy := hv |}
           {| m_cpu := c; m_max_cpu := x'; m_memory := m;
              m_cluster_state := st; m_errors := er; m_heavy := hv |}
| raise_memory c x m m' st er hv :
    float_le m m' = true ->
    raised {| m_cpu := c; m_max_cpu := x; m_memory := m;
              m_cluster_state := st; m_errors := er; m_heavy := hv |}
           {| m_cpu := c; m_max_cpu := x; m_memory := m';
              m_cluster_state := st; m_errors := er; m_heavy := hv |}
| add_error c x m st er1 s er2 hv :
    raised {| m_cpu := c; m_max_cpu := x; m_memory := m;
              m_cluster_state := st; m_errors := er1 ++ er2; m_heavy := hv |}
           {| m_cpu := c; m_max_cpu := x; m_memory := m;
              m_cluster_state := st; m_errors := er1 ++ s :: er2;
              m_heavy := hv |}
| add_heavy c x m st er hv1 s hv2 :
    raised {| m_cpu := c; m_max_cpu := x; m_memory := m;
              m_cluster_state := st; m_errors := er; m_heavy := hv1 ++ hv2 |}
           {| m_cpu := c; m_max_cpu := x; m_memory := m;
              m_cluster_state := st; m_errors := er;
              m_heavy := hv1 ++ s :: hv2 |}.

(** [get_errors]: [output] is what [run_command] returned for the device
    list (the empty string when the probe failed). *)
Definition get_errors (output : string) : list string :=
  let errors := [] in
  let devices := split_nlnl output in
  fold_left
    (fun errors device =>
       let name_match := re_search "Device Name:" device in
       let state_match := re_search "State:" device in
       match name_match, state_match with
       | Some name_group, Some state_group =>
           let name := strip name_group in
           let state := strip state_group in
           if bool_decide (state ≠ "OK")
           then errors ++ [name +:+ ": " +:+ state]
           else errors
       | _, _ => errors
       end)
    devices errors.

(** In the words of the specification: the value of a field of a device
    block, and what one block contributes to the list of errors. *)
Definition field (label block : string) : option string :=
  strip <$> re_search label block.

Definition device_report (block : string) : list string :=
  match field "Device Name:" block, field "State:" block with
  | Some name, Some state =>
      if bool_decide (state = "OK") then [] else [name +:+ ": " +:+ state]
  | _, _ => []
  end.

(** [MOCK_DATA['cphaprob_list']], and the two-device example of the
    specification. *)
Definition MOCK_cphaprob_list : string :=
  "Device Name: Synchronization" +:+ String nl "State: OK" +:+ blank
  +:+ "Device Name: Filter" +:+ String nl "State: OK".

Definition sync_ok_filter_down : string :=
  "Device Name: Sync" +:+ String nl "State: OK" +:+ blank
  +:+ "Device Name: Filter" +:+ String nl "State: DOWN".

(** [get_heavy_connections]: [today_str] is the date of the day as
    [DD/MM/YY] (a fixed date in mock mode) and [output] what [run_command]
    returned. *)
Definition get_heavy_connections (today_str output : string) : list string :=
  let heavy_conns := [] in
  if negb (nonempty_str output) then []
  else
    let lines := split_char nl (strip output) in
    let last_5_lines := drop (length lines - 5) lines in
    fold_left
      (fun heavy_conns line =>
         if contains line today_str then heavy_conns ++ [strip line]
         else heavy_conns)
      last_5_lines heavy_conns.

Section Cpu.

(** [float(text)] ([None] where it raises [ValueError]), [str(x)] of a
    float, the rounded mean [round(sum(cpus) / len(cpus), 2)], and what the
    rest of [get_cpu_usage] returns when the table gave no row: the
    aggregate figure of a second probe, the counters of the kernel, or the
    zeros. *)
Variable parse_float : string -> option pyfloat.
Variable float_str : pyfloat -> string.
Variable rounded_mean : list pyfloat -> pyfloat.
Variable fallback : pyfloat * pyfloat * list string.

(** The loop of [get_cpu_usage] over the lines of the table. *)
Definition cpu_table (output : string) (warning_threshold : Z)
  : list pyfloat * list string :=
  fold_left
    (fun state line =>
       let '(cpus, heavy_cpus) := state in
       let line := strip line in
       if negb (startswith line "|") || contains line "CPU#" then state
       else
         let parts := split_char "|" line in
         if (6 <=? length parts)%nat then
           match parts !! 1%nat, parts !! 5%nat with
           | Some id_text, Some usage_text =>
               let cpu_id := strip id_text in
               match parse_float (strip usage_text) with
               | Some usage =>
                   (cpus ++ [usage],
                    if ge_int usage warning_threshold
                    then heavy_cpus
                         ++ ["CPU" +:+ cpu_id +:+ ": " +:+ float_str usage
                             +:+ "%"]
                    else heavy_cpus)
               | None => state
               end
           | _, _ => state
           end
         else state)
    (split_char nl (strip output)) ([], []).

(** [get_cpu_usage]: [output] is what [run_command] returned for the
    per-processor table. *)
Definition get_cpu_usage (output : string) (warning_threshold : Z)
  : pyfloat * pyfloat * list string :=
  let '(cpus, heavy_cpus) := cpu_table output warning_threshold in
  match cpus with
  | first :: rest => (rounded_mean cpus, py_max first rest, heavy_cpus)
  | [] => fallback
  end.

End Cpu.

Section ClusterState.

(** [s.capitalize()] *)
Variable capitalize : string -> string.

(** The loop of [get_cluster_state] over the lines of the table. *)
Fixpoint local_row_state (lines : list string) : option string :=
  match lines with
  | [] => None
  | line :: rest =>
      if contains line "(local)" then
        match last (split_ws line) with
        | Some state => Some (capitalize state)
        | None => local_row_state rest
        end
      else local_row_state rest
  end.

(** [get_cluster_state]: [output] is what [run_command] returned. *)
Definition get_cluster_state (output : string) : string :=
  match re_search "State:" output with
  | Some group => strip group
  | None =>
      match local_row_state (split_char nl output) with
      | Some state => state
      | None =>
          if contains output "Active" then "Active"
          else if contains output "Standby" then "Standby"
          else "Unknown"
      end
  end.

End ClusterState.

Section Payload.

Variable float_str : pyfloat -> string.
Variable hostname : string.
(** The text [Free: {free_gb:.3f}GB ({free_percent:.3f}%)] computed in
    floating point from the two byte counts. *)
Variable mem_str : Z -> Z -> string.

(** [build_payload] *)
Definition build_payload
    (cpu_usage : pyfloat) (heavy_cpus : list string) (memory_usage : pyfloat)
    (total_mem_bytes free_mem_bytes : Z) (cluster_state : string)
    (errors heavy_connections : list string) (severity : string)
    (project_name system_name : string) : pyval :=
  let error_str := "No Errors" in
  let error_str := if nonempty errors then join ", " errors else error_str in
  let cpu_str := float_str cpu_usage +:+ "%" in
  let cpu_str :=
    if nonempty heavy_cpus
    then cpu_str +:+ " (Heavy: " +:+ join ", " heavy_cpus +:+ ")"
    else cpu_str in
  let heavy_conn_str := "None" in
  let heavy_conn_str :=
    if nonempty heavy_connections
    then pretty (length heavy_connections) +:+ " found"
    else heavy_conn_str in
  VDict
    [("projectName", VStr project_name);
     ("systemName", VStr system_name);
     ("payload",
      VDict
        [("Id", VStr hostname);
         ("Name", VStr hostname);
         ("CPU", VStr cpu_str);
         ("Memory", VStr (mem_str total_mem_bytes free_mem_bytes));
         ("Cluster State", VStr cluster_state);
         ("Errors", VStr error_str);
         ("Heavy Connections", VStr heavy_conn_str);
         ("Severity", VStr severity)])].

(** [main] of [get_checkpoint_metrics.py], from the collected metrics to the
    payload. *)
Definition main
    (cpu_usage max_cpu_usage : pyfloat) (heavy_cpus : list string)
    (memory_usage : pyfloat) (total_mem free_mem : Z) (cluster_state : string)
    (errors heavy_connections : list string)
    (threshold_warning threshold_error : Z)
    (project_name system_name : string) : pyval :=
  let severity :=
    calculate_severity cpu_usage max_cpu_usage memory_usage cluster_state
      errors heavy_connections threshold_warning threshold_error in
  build_payload cpu_usage heavy_cpus memory_usage total_mem free_mem
    cluster_state errors heavy_connections severity project_name system_name.

End Payload.

End Checkpoint.

(** ** The cluster workload agent *)

Module Ocp.
Import PyStr.

Definition SYSTEM_NAME : string := "OpenShift".

(** [RESOURCES], in insertion order *)
Definition RESOURCES : list (string * string) :=
  [("Deployments", "deployments");
   ("Statefulsets", "statefulsets");
   ("Daemonsets", "daemonsets")].

(** [calculate_status]: [spec] and [status] are the two JSON objects of a
    workload, restricted to their integer fields. *)
Definition calculate_status (kind : string) (spec status : gmap string Z)
  : string * string * Z * Z :=
  let desired := 0%Z in
  let current := 0%Z in
  let '(desired, current) :=
    if bool_decide (kind = "deployments") then
      (default 1%Z (spec !! "replicas"),
       default 0%Z (status !! "availableReplicas"))
    else if bool_decide (kind = "statefulsets") then
      (default 1%Z (spec !! "replicas"),
       default 0%Z (status !! "readyReplicas"))
    else if bool_decide (kind = "daemonsets") then
      (default 0%Z (status !! "desiredNumberScheduled"),
       default 0%Z (status !! "numberReady"))
    else (desired, current) in
  (* Status Logic *)
  let status_str := "Unknown" in
  let severity := "info" in
  let '(status_str, severity) :=
    if (0 <? desired)%Z then
      if (desired <=? current)%Z then ("Running", "ok")
      else if (current =? 0)%Z then ("Down", "error")
      else ("Degraded", "warning")
    else
      (* Scaled down intentionally *)
      ("ScaledDown", "warning") in
  (status_str, severity, desired, current).

(** The four components of the tuple [calculate_status] returns. *)
Definition status_str_of (r : string * string * Z * Z) : string := r.1.1.1.
Definition severity_of (r : string * string * Z * Z) : string := r.1.1.2.
Definition desired_of (r : string * string * Z * Z) : Z := r.1.2.
Definition current_of (r : string * string * Z * Z) : Z := r.2.

(** One element of [items]: the metadata fields read with [.get] (absent
    ones are [None]) and the two objects handed to [calculate_status]. *)
Record Item : Type := {
  name : option string;
  namespace : option string;
  creationTimestamp : option string;
  spec_obj : gmap string Z;
  status_obj : gmap string Z
}.

(** A resource entry: a dict from field names to [str] or [None]. *)
Definition resource_entry (k8s_kind : string) (item : Item)
  : list (string * option string) :=
  let '(status_str, severity, desired, current) :=
    calculate_status k8s_kind (spec_obj item) (status_obj item) in
  [("Id", name item);
   ("Name", name item);
   ("Namespace", namespace item);
   ("Status", Some status_str);
   ("Severity", Some severity);
   ("ClusterCreatedAt", creationTimestamp item);
   ("Replicas", Some (pretty current +:+ "/" +:+ pretty desired))].

Definition field_value (v : option string) : pyval :=
  match v with
  | Some s => VStr s
  | None => VNone
  end.

Definition resource_value (resource : list (string * option string)) : pyval :=
  VDict (map (fun kv => (fst kv, field_value (snd kv))) resource).

(** [str(v)] of a field inside an f-string *)
Definition field_str (v : option string) : string :=
  match v with
  | Some s => s
  | None => "None"
  end.

(** The body of one request. *)
Definition request_body (project_name : string)
    (resource : list (string * option string)) : pyval :=
  VDict
    [("systemName", VStr SYSTEM_NAME);
     ("projectName", VStr project_name);
     ("payload", VStr (Json.dumps (resource_value resource)))].

(** What [requests.post] does with one request. *)
Inductive post_outcome : Type :=
| Response (status_code : Z) (text : string)
| PostRaises (message : string).

Inductive exn : Type :=
| KeyError (key : string)
| RequestException (message : string).

Definition exn_str (e : exn) : string :=
  match e with
  | KeyError key => "'" +:+ key +:+ "'"
  | RequestException message => message
  end.

(** The state the posting loop threads: the bodies handed to
    [requests.post] and the lines printed, both oldest first. *)
Record LoopState : Type := {
  posted : list pyval;
  printed : list string
}.

(** The [try] block of one iteration: the lines it prints, or the exception
    raised inside it. *)
Definition try_block (resource : list (string * option string))
    (outcome : post_outcome) : list string + exn :=
  match outcome with
  | PostRaises message => inr (RequestException message)
  | Response status_code text =>
      if (status_code <? 200)%Z || (300 <=? status_code)%Z then
        match dict_get resource "name" with
        | Some v =>
            inl ["Failed to post " +:+ field_str v +:+ ". Code: "
                 +:+ pretty status_code +:+ ", Body: " +:+ text]
        | None => inr (KeyError "name")
        end
      else inl []
  end.

(** The [except Exception as e] handler: the line it prints, or the
    exception raised inside it, which nothing catches. *)
Definition except_block (resource : list (string * option string)) (e : exn)
  : list string + exn :=
  match dict_get resource "name" with
  | Some v => inl ["Exception posting " +:+ field_str v +:+ ": " +:+ exn_str e]
  | None => inr (KeyError "name")
  end.

Definition post_one (resource : list (string * option string))
    (outcome : post_outcome) : list string + exn :=
  match try_block resource outcome with
  | inl lines => inl lines
  | inr e => except_block resource e
  end.

Definition print (st : LoopState) (line : string) : LoopState :=
  {| posted := posted st; printed := printed st ++ [line] |}.

(** [for resource in resource_list: ...]: [outcomes n] is what the call of
    [requests.post] does that comes after [n] earlier calls of the run. *)
Fixpoint post_loop (project_name : string)
    (resource_list : list (list (string * option string)))
    (outcomes : nat -> post_outcome) (st : LoopState)
  : LoopState * option exn :=
  match resource_list with
  | [] => (st, None)
  | resource :: rest =>
      let body := request_body project_name resource in
      let outcome := outcomes (length (posted st)) in
      let st := {| posted := posted st ++ [body]; printed := printed st |} in
      match post_one resource outcome with
      | inl lines =>
          post_loop project_name rest outcomes
            {| posted := posted st; printed := printed st ++ lines |}
      | inr e => (st, Some e)
      end
  end.

(** The body of the outer loop of [collect_and_push] for one entry of
    [RESOURCES]: [run_oc] gives the items of the answer, or [None] when the
    answer is [None] or empty (what [run_oc] itself prints is left out). *)
Definition push_kind (run_oc : string -> option (list Item))
    (outcomes : nat -> post_outcome) (project_name k8s_kind : string)
    (st : LoopState) : LoopState * option exn :=
  let st := print st ("Collecting " +:+ k8s_kind +:+ "...") in
  match run_oc ("oc get " +:+ k8s_kind +:+ " --all-namespaces -o json") with
  | None => (print st ("No data found for " +:+ k8s_kind), None)
  | Some items =>
      let resource_list := map (resource_entry k8s_kind) items in
      let st :=
        print st ("Found " +:+ pretty (length resource_list)
                  +:+ " resources for " +:+ project_name) in
      match post_loop project_name resource_list outcomes st with
      | (st, None) => (print st ("Finished posting " +:+ project_name), None)
      | (st, Some e) => (st, Some e)
      end
  end.

Fixpoint push_kinds (run_oc : string -> option (list Item))
    (outcomes : nat -> post_outcome) (resources : list (string * string))
    (st : LoopState) : LoopState * option exn :=
  match resources with
  | [] => (st, None)
  | (project_name, k8s_kind) :: rest =>
      match push_kind run_oc outcomes project_name k8s_kind st with
      | (st, None) => push_kinds run_oc outcomes rest st
      | (st, Some e) => (st, Some e)
      end
  end.

(** [collect_and_push]: the final state, and the exception that ended the
    run if one did. *)
Definition collect_and_push (run_oc : string -> option (list Item))
    (outcomes : nat -> post_outcome) : LoopState * option exn :=
  push_kinds run_oc outcomes RESOURCES {| posted := []; printed := [] |}.

(** Whether a request went through: an answer with a status from 200 to
    299. *)
Definition accepted (outcome : post_outcome) : bool :=
  match outcome with
  | Response status_code _ =>
      negb ((status_code <? 200)%Z || (300 <=? status_code)%Z)
  | PostRaises _ => false
  end.

(** The bodies [collect_and_push] has to post for one entry of
    [RESOURCES]. *)
Definition bodies_of_kind (run_oc : string -> option (list Item))
    (entry : string * string) : list pyval :=
  match run_oc ("oc get " +:+ entry.2 +:+ " --all-namespaces -o json") with
  | Some items =>
      map (fun item => request_body entry.1 (resource_entry entry.2 item)) items
  | None => []
  end.

End Ocp.

(** * The counts of a workload, as the specification words them *)

Module OcpSpec.

(** The three kinds of workload object the cluster agent reports. *)
Inductive Workload : Type := Deployment | StatefulSet | DaemonSet.

Definition workloads : list Workload := [Deployment; StatefulSet; DaemonSet].

(** The kind under which the agent asks for each of them. *)
Definition kind_of (w : Workload) : string :=
  match w with
  | Deployment => "deployments"
  | StatefulSet => "statefulsets"
  | DaemonSet => "daemonsets"
  end.

(** Desired count: the replicas of the spec for a Deployment and a
    StatefulSet (1 when the field is absent), the desired-scheduled number
    of the status for a DaemonSet (0 when absent). *)
Definition desired (w : Workload) (spec status : gmap string Z) : Z :=
  match w with
  | Deployment | StatefulSet => default 1%Z (spec !! "replicas")
  | DaemonSet => default 0%Z (status !! "desiredNumberScheduled")
  end.

(** Current count: available replicas for a Deployment, ready replicas for
    a StatefulSet, number ready for a DaemonSet; 0 when the field is
    absent. *)
Definition current (w : Workload) (status : gmap string Z) : Z :=
  match w with
  | Deployment => default 0%Z (status !! "availableReplicas")
  | StatefulSet => default 0%Z (status !! "readyReplicas")
  | DaemonSet => default 0%Z (status !! "numberReady")
  end.

End OcpSpec.

(** * Properties *)

(** ** The examples of the specification *)

Example cpu_96_is_error :
  Linux.calculate_severity (Finite 96) (Finite 10) [] [] 85 95 = "error"
  /\ Checkpoint.calculate_severity (Finite 96) (Finite 96) (Finite 10)
       "Active" [] [] 85 95 = "error".
Proof. by split. Qed.

Example cpu_87_is_warning :
  Linux.calculate_severity (Finite 87) (Finite 10) [] [] 85 95 = "warning"
  /\ Checkpoint.calculate_severity (Finite 87) (Finite 87) (Finite 10)
       "Active" [] [] 85 95 = "warning".
Proof. by split. Qed.

Example one_saturated_core :
  Checkpoint.calculate_severity (Finite 25) (Finite 90) (Finite 10)
    "Active" [] [] 85 95 = "warning".
Proof. reflexivity. Qed.

Example quiet_host float_str hostname :
  body_get
    (Linux.main float_str hostname (Finite 10) (Finite 10) [] [] 85 95
       "Servers" "Monitoring")
    "payload"
  = Some (VDict
      [("Id", VStr hostname); ("Name", VStr hostname);
       ("CPU", VStr (float_str (Finite 10) +:+ "%"));
       ("Memory", VStr (float_str (Finite 10) +:+ "%"));
       ("Disks", VStr "No disks found");
       ("Services", VStr "All Enabled Services Running");
       ("Severity", VStr "ok")]).
Proof. reflexivity. Qed.

Example daemonset_scaled_down :
  Ocp.calculate_status "daemonsets" ∅ {["desiredNumberScheduled" := 0%Z]}
  = ("ScaledDown", "warning", 0%Z, 0%Z).
Proof. reflexivity. Qed.

Example mock_devices_are_ok :
  Checkpoint.get_errors Checkpoint.MOCK_cphaprob_list = [].
Proof. reflexivity. Qed.

Example state_without_value :
  Checkpoint.get_errors
    ("Device Name: Sync" +:+ String PyStr.nl "State:   " +:+ PyStr.blank
     +:+ "Device Name: Filter" +:+ String PyStr.nl "State: OK ")
  = ["Sync: "].
Proof. reflexivity. Qed.

Example split_three_line_feeds :
  PyStr.split_nlnl ("a" +:+ PyStr.blank +:+ String PyStr.nl "b")
  = ["a"; String PyStr.nl "b"].
Proof. reflexivity. Qed.

(** ** The order of severities *)

Lemma sev_max_comm a b : sev_max a b = sev_max b a.
Proof. by destruct a, b. Qed.

Lemma sev_max_assoc a b c : sev_max a (sev_max b c) = sev_max (sev_max a b) c.
Proof. by destruct a, b, c. Qed.

Lemma sev_max_ok_l a : sev_max SevOk a = a.
Proof. by destruct a. Qed.

Lemma sev_leb_max_mono a a' b b' :
  sev_leb a a' = true -> sev_leb b b' = true ->
  sev_leb (sev_max a b) (sev_max a' b') = true.
Proof. by destruct a, a', b, b'. Qed.

Lemma sev_leb_refl a : sev_leb a a = true.
Proof. by destruct a. Qed.

Lemma fold_sev_max l a : fold_left sev_max l a = sev_max a (max_of l).
Proof.
  unfold max_of. revert a.
  induction l as [|x l IH]; intros a; simpl.
  - by destruct a.
  - rewrite (IH (sev_max a x)), (IH (sev_max SevOk x)), sev_max_ok_l.
    by rewrite sev_max_assoc.
Qed.

Lemma max_of_cons x l : max_of (x :: l) = sev_max x (max_of l).
Proof. unfold max_of at 1. simpl. by rewrite fold_sev_max, sev_max_ok_l. Qed.

Lemma max_of_app l1 l2 : max_of (l1 ++ l2) = sev_max (max_of l1) (max_of l2).
Proof.
  unfold max_of at 1. rewrite fold_left_app, fold_sev_max.
  by fold (max_of l1).
Qed.

(** The order in which the rules are listed does not change the maximum. *)
Lemma max_of_Permutation l1 l2 : l1 ≡ₚ l2 -> max_of l1 = max_of l2.
Proof.
  induction 1 as [|x l l' _ IH|x y l|l l' l'' _ IH1 _ IH2].
  - done.
  - by rewrite !max_of_cons, IH.
  - rewrite !max_of_cons, !sev_max_assoc. by rewrite (sev_max_comm y x).
  - by rewrite IH1.
Qed.

Lemma severity_of_name_name s : severity_of_name (severity_name s) = Some s.
Proof. by destruct s. Qed.

Lemma severity_leb_name a b :
  severity_leb (severity_name a) (severity_name b) = sev_leb a b.
Proof. unfold severity_leb. by rewrite !severity_of_name_name. Qed.

(** ** Comparisons of floats with the thresholds *)

Lemma ge_int_mono a b t :
  float_le a b = true -> ge_int a t = true -> ge_int b t = true.
Proof.
  destruct a as [| |p|], b as [| |q|]; simpl; try done.
  rewrite !Qle_bool_iff. intros Hpq Htp. by apply Qle_trans with p.
Qed.

Lemma rule_threshold_mono a b w e :
  float_le a b = true ->
  sev_leb (rule_threshold a w e) (rule_threshold b w e) = true.
Proof.
  intros Hab. unfold rule_threshold.
  destruct (ge_int a e) eqn:Hae.
  { by rewrite (ge_int_mono a b e Hab Hae). }
  destruct (ge_int a w) eqn:Haw.
  { rewrite (ge_int_mono a b w Hab Haw). by destruct (ge_int b e). }
  by destruct (ge_int b e), (ge_int b w).
Qed.

(** ** The ratchet is a maximum *)

(** One two-threshold step of the running severity. *)
Lemma ratchet_step s x w e :
  (if ge_int x e then "error"
   else if ge_int x w && bool_decide (severity_name s ≠ "error") then "warning"
   else severity_name s)
  = severity_name (sev_max s (rule_threshold x w e)).
Proof.
  unfold rule_threshold.
  by destruct (ge_int x e), (ge_int x w), s.
Qed.

Lemma presence_step {A} s (l : list A) :
  (if PyStr.nonempty l then "error" else severity_name s)
  = severity_name (sev_max s (rule_presence l)).
Proof. by destruct l, s. Qed.

Lemma linux_disks_fold s disks w e :
  fold_left
    (fun severity disk =>
       if ge_int (Linux.used_percent disk) e then "error"
       else if ge_int (Linux.used_percent disk) w
               && bool_decide (severity ≠ "error") then "warning"
       else severity)
    disks (severity_name s)
  = severity_name
      (fold_left sev_max
         (map (fun d => rule_threshold (Linux.used_percent d) w e) disks) s).
Proof.
  revert s. induction disks as [|d disks IH]; intros s; simpl; [done|].
  by rewrite ratchet_step, IH.
Qed.

Lemma linux_severity_max cpu mem disks failed w e :
  Linux.calculate_severity cpu mem disks failed w e
  = severity_name (max_of (Linux.rules cpu mem disks failed w e)).
Proof.
  unfold Linux.calculate_severity, Linux.rules, max_of. cbv zeta.
  change "ok" with (severity_name SevOk).
  rewrite !ratchet_step, linux_disks_fold, presence_step.
  simpl. by rewrite fold_left_app.
Qed.

Lemma checkpoint_cpu_step s avg mx w e :
  (if ge_int avg e || ge_int mx e then "error"
   else if (ge_int avg w || ge_int mx w)
           && bool_decide (severity_name s ≠ "error") then "warning"
   else severity_name s)
  = severity_name (sev_max s (Checkpoint.rule_cpu avg mx w e)).
Proof.
  unfold Checkpoint.rule_cpu.
  by destruct (ge_int avg e), (ge_int mx e), (ge_int avg w), (ge_int mx w), s.
Qed.

Lemma checkpoint_state_step s st :
  (if bool_decide (PyStr.lower st ∈ ["down"; "problem"; "error"; "unknown"])
   then "error" else severity_name s)
  = severity_name (sev_max s (Checkpoint.rule_cluster_role st)).
Proof.
  unfold Checkpoint.rule_cluster_role.
  case_bool_decide; by destruct s.
Qed.

Lemma checkpoint_severity_max cpu mx mem st errors heavy w e :
  Checkpoint.calculate_severity cpu mx mem st errors heavy w e
  = severity_name (max_of (Checkpoint.rules cpu mx mem st errors heavy w e)).
Proof.
  unfold Checkpoint.calculate_severity, Checkpoint.rules, max_of. cbv zeta.
  change "ok" with (severity_name SevOk).
  rewrite checkpoint_cpu_step, ratchet_step, checkpoint_state_step.
  by rewrite (presence_step _ errors), (presence_step _ heavy).
Qed.

(** Each entry of the two rule lists is the verdict of the classifier when
    only that rule has something to look at. *)
Lemma linux_rules_alone cpu mem d failed w e :
  Linux.calculate_severity cpu NaN [] [] w e
    = severity_name (rule_threshold cpu w e)
  /\ Linux.calculate_severity NaN mem [] [] w e
    = severity_name (rule_threshold mem w e)
  /\ Linux.calculate_severity NaN NaN [d] [] w e
    = severity_name (rule_threshold (Linux.used_percent d) w e)
  /\ Linux.calculate_severity NaN NaN [] failed w e
    = severity_name (rule_presence failed).
Proof.
  rewrite !linux_severity_max. unfold Linux.rules, max_of, rule_threshold.
  simpl. repeat split.
  - by destruct (ge_int cpu e), (ge_int cpu w).
  - by destruct (ge_int mem e), (ge_int mem w).
  - by destruct (ge_int (Linux.used_percent d) e),
      (ge_int (Linux.used_percent d) w).
  - by destruct failed.
Qed.

Lemma checkpoint_rules_alone cpu mx mem st errors heavy w e :
  Checkpoint.calculate_severity cpu mx NaN "" [] [] w e
    = severity_name (Checkpoint.rule_cpu cpu mx w e)
  /\ Checkpoint.calculate_severity NaN NaN mem "" [] [] w e
    = severity_name (rule_threshold mem w e)
  /\ Checkpoint.calculate_severity NaN NaN NaN st [] [] w e
    = severity_name (Checkpoint.rule_cluster_role st)
  /\ Checkpoint.calculate_severity NaN NaN NaN "" errors [] w e
    = severity_name (rule_presence errors)
  /\ Checkpoint.calculate_severity NaN NaN NaN "" [] heavy w e
    = severity_name (rule_presence heavy).
Proof.
  rewrite !checkpoint_severity_max.
  unfold Checkpoint.rules, max_of, rule_threshold, Checkpoint.rule_cpu.
  simpl. repeat split.
  - by destruct (ge_int cpu e), (ge_int mx e), (ge_int cpu w), (ge_int mx w).
  - by destruct (ge_int mem e), (ge_int mem w).
  - by destruct (Checkpoint.rule_cluster_role st).
  - by destruct errors.
  - by destruct heavy.
Qed.

(** C3.  For every input, in both agents, the classifier written as a
    sequence of reassignments of the running severity returns the ordinal
    maximum [max(ok, rule_1, rule_2, ...)] of the severities the rules
    assign one by one. *)
Theorem ratchet_equals_maximum :
  (forall cpu mem disks failed w e,
      Linux.calculate_severity cpu mem disks failed w e
      = severity_name (max_of (Linux.rules cpu mem disks failed w e)))
  /\ (forall cpu mx mem st errors heavy w e,
      Checkpoint.calculate_severity cpu mx mem st errors heavy w e
      = severity_name
          (max_of (Checkpoint.rules cpu mx mem st errors heavy w e))).
Proof.
  split; intros.
  - apply linux_severity_max.
  - apply checkpoint_severity_max.
Qed.

(** ** Unconditional errors *)

Lemma rule_presence_insert {A} (l1 l2 : list A) x :
  rule_presence (l1 ++ x :: l2) = SevError.
Proof. by destruct l1. Qed.

(** C1.  In both agents the verdict is ["error"], whatever the thresholds
    and the CPU, memory and disk values, as soon as the list of failed or
    stopped services is not empty (host agent), or the lower-cased cluster
    state is one of [down], [problem], [error], [unknown], or the list of
    device errors or of heavy connections is not empty (appliance agent). *)
Theorem severity_error_unconditional :
  (forall cpu mem disks failed w e,
      failed ≠ [] ->
      Linux.calculate_severity cpu mem disks failed w e = "error")
  /\ (forall cpu mx mem st errors heavy w e,
      PyStr.lower st ∈ ["down"; "problem"; "error"; "unknown"]
      \/ errors ≠ [] \/ heavy ≠ [] ->
      Checkpoint.calculate_severity cpu mx mem st errors heavy w e = "error").
Proof.
  split.
  - intros cpu mem disks failed w e Hf.
    unfold Linux.calculate_severity. by destruct failed.
  - intros cpu mx mem st errors heavy w e H.
    unfold Checkpoint.calculate_severity. cbv zeta.
    destruct heavy as [|h heavy]; [|done].
    destruct errors as [|x errors]; [|done].
    destruct H as [H|[H|H]]; [|done..].
    simpl. by rewrite bool_decide_eq_true_2.
Qed.

Lemma severity_error_unconditional_witness :
  Linux.calculate_severity (Finite 1) (Finite 2) [] ["cron.service"] 85 95
    = "error"
  /\ Checkpoint.calculate_severity (Finite 1) (Finite 2) (Finite 3)
       "Down" [] [] 85 95 = "error".
Proof.
  split.
  - apply (proj1 severity_error_unconditional). discriminate.
  - apply (proj2 severity_error_unconditional). left. vm_compute.
    constructor.
Defined.

(** ** Monotonicity *)

Lemma sev_leb_max_l a b : sev_leb b (sev_max a b) = true.
Proof. by destruct a, b. Qed.

Lemma sev_leb_error a : sev_leb a SevError = true.
Proof. by destruct a. Qed.

Lemma rule_cpu_mono_avg a a' mx w e :
  float_le a a' = true ->
  sev_leb (Checkpoint.rule_cpu a mx w e) (Checkpoint.rule_cpu a' mx w e) = true.
Proof.
  intros Hle. unfold Checkpoint.rule_cpu.
  pose proof (ge_int_mono a a' e Hle) as He.
  pose proof (ge_int_mono a a' w Hle) as Hw.
  destruct (ge_int a e), (ge_int a w);
    try rewrite (He eq_refl); try rewrite (Hw eq_refl); simpl;
    by destruct (ge_int a' e), (ge_int a' w), (ge_int mx e), (ge_int mx w).
Qed.

Lemma rule_cpu_mono_max a mx mx' w e :
  float_le mx mx' = true ->
  sev_leb (Checkpoint.rule_cpu a mx w e) (Checkpoint.rule_cpu a mx' w e) = true.
Proof.
  intros Hle. unfold Checkpoint.rule_cpu.
  pose proof (ge_int_mono mx mx' e Hle) as He.
  pose proof (ge_int_mono mx mx' w Hle) as Hw.
  destruct (ge_int mx e), (ge_int mx w);
    try rewrite (He eq_refl); try rewrite (Hw eq_refl); simpl;
    by destruct (ge_int mx' e), (ge_int mx' w), (ge_int a e), (ge_int a w).
Qed.

Ltac sev_mono :=
  repeat first
    [ apply sev_leb_refl
    | apply sev_leb_error
    | apply rule_threshold_mono; assumption
    | apply rule_cpu_mono_avg; assumption
    | apply rule_cpu_mono_max; assumption
    | apply sev_leb_max_mono ].

Lemma linux_raised_mono m m' w e :
  Linux.raised m m' ->
  severity_leb (Linux.severity_of m w e) (Linux.severity_of m' w e) = true.
Proof.
  intros Hr. unfold Linux.severity_of.
  rewrite !linux_severity_max, severity_leb_name.
  destruct Hr;
    cbn [Linux.m_cpu Linux.m_memory Linux.m_disks Linux.m_services];
    unfold Linux.rules;
    rewrite ?map_app, ?map_cons, ?max_of_app, ?max_of_cons;
    try by sev_mono.
  - sev_mono. apply sev_leb_max_l.
  - rewrite rule_presence_insert. sev_mono.
Qed.

Lemma checkpoint_raised_mono m m' w e :
  Checkpoint.raised m m' ->
  severity_leb (Checkpoint.severity_of m w e) (Checkpoint.severity_of m' w e)
  = true.
Proof.
  intros Hr. unfold Checkpoint.severity_of.
  rewrite !checkpoint_severity_max, severity_leb_name.
  destruct Hr;
    cbn [Checkpoint.m_cpu Checkpoint.m_max_cpu Checkpoint.m_memory
         Checkpoint.m_cluster_state Checkpoint.m_errors Checkpoint.m_heavy];
    unfold Checkpoint.rules;
    rewrite !max_of_cons, ?rule_presence_insert; by sev_mono.
Qed.

Lemma sev_leb_trans a b c :
  sev_leb a b = true -> sev_leb b c = true -> sev_leb a c = true.
Proof. by destruct a, b, c. Qed.

(** Any number of such changes, one after the other. *)
Lemma linux_raised_many_mono m m' w e :
  rtc Linux.raised m m' ->
  severity_leb (Linux.severity_of m w e) (Linux.severity_of m' w e) = true.
Proof.
  induction 1 as [m|m m1 m2 Hstep _ IH].
  - unfold Linux.severity_of. rewrite linux_severity_max, severity_leb_name.
    apply sev_leb_refl.
  - pose proof (linux_raised_mono m m1 w e Hstep) as H1.
    unfold Linux.severity_of in *.
    rewrite !linux_severity_max, !severity_leb_name in *.
    by eapply sev_leb_trans.
Qed.

Lemma checkpoint_raised_many_mono m m' w e :
  rtc Checkpoint.raised m m' ->
  severity_leb (Checkpoint.severity_of m w e) (Checkpoint.severity_of m' w e)
  = true.
Proof.
  induction 1 as [m|m m1 m2 Hstep _ IH].
  - unfold Checkpoint.severity_of.
    rewrite checkpoint_severity_max, severity_leb_name.
    apply sev_leb_refl.
  - pose proof (checkpoint_raised_mono m m1 w e Hstep) as H1.
    unfold Checkpoint.severity_of in *.
    rewrite !checkpoint_severity_max, !severity_leb_name in *.
    by eapply sev_leb_trans.
Qed.

(** C2.  For all thresholds with [warning <= error] and all inputs, raising
    one numeric input (CPU average, CPU maximum, memory, the used percentage
    of a disk) or adding an element to one of the lists (disks, failed
    services, device errors, heavy connections) never yields a severity
    lower in the order ok < warning < error; in both agents. *)
Theorem severity_monotone (warning_threshold error_threshold : Z) :
  (warning_threshold <= error_threshold)%Z ->
  (forall m m', Linux.raised m m' ->
     severity_leb (Linux.severity_of m warning_threshold error_threshold)
                  (Linux.severity_of m' warning_threshold error_threshold)
     = true)
  /\ (forall m m', Checkpoint.raised m m' ->
     severity_leb (Checkpoint.severity_of m warning_threshold error_threshold)
                  (Checkpoint.severity_of m' warning_threshold error_threshold)
     = true).
Proof.
  intros _. split; intros m m' Hr.
  - by apply linux_raised_mono.
  - by apply checkpoint_raised_mono.
Qed.

Lemma severity_monotone_witness :
  severity_leb
    (Linux.severity_of
       {| Linux.m_cpu := Finite 10; Linux.m_memory := Finite 10;
          Linux.m_disks := []; Linux.m_services := [] |} 85 95)
    (Linux.severity_of
       {| Linux.m_cpu := Finite 96; Linux.m_memory := Finite 10;
          Linux.m_disks := []; Linux.m_services := [] |} 85 95)
  = true.
Proof.
  apply (proj1 (severity_monotone 85 95 ltac:(lia))).
  apply Linux.raise_cpu. reflexivity.
Defined.

(** ** Workload status of the cluster agent *)

Lemma calculate_status_cases kind spec status :
  let r := Ocp.calculate_status kind spec status in
  let desired := Ocp.desired_of r in
  let current := Ocp.current_of r in
  ((0 < desired)%Z /\ (desired <= current)%Z
   /\ Ocp.status_str_of r = "Running" /\ Ocp.severity_of r = "ok")
  \/ ((0 < desired)%Z /\ current = 0%Z
      /\ Ocp.status_str_of r = "Down" /\ Ocp.severity_of r = "error")
  \/ ((0 < desired)%Z /\ (current < desired)%Z /\ current ≠ 0%Z
      /\ Ocp.status_str_of r = "Degraded" /\ Ocp.severity_of r = "warning")
  \/ ((desired <= 0)%Z
      /\ Ocp.status_str_of r = "ScaledDown" /\ Ocp.severity_of r = "warning").
Proof.
  unfold Ocp.calculate_status. cbv zeta.
  destruct (if bool_decide (kind = "deployments") then _ else _)
    as [desired current].
  unfold Ocp.status_str_of, Ocp.severity_of, Ocp.desired_of, Ocp.current_of.
  destruct (Z.ltb_spec 0 desired); [|simpl; naive_solver].
  destruct (Z.leb_spec desired current); [simpl; naive_solver|].
  destruct (Z.eqb_spec current 0); simpl.
  - right. left. done.
  - right. right. left. done.
Qed.

Lemma calculate_status_counts kind spec status :
  let r := Ocp.calculate_status kind spec status in
  (kind = "deployments" ->
   Ocp.desired_of r = default 1%Z (spec !! "replicas")
   /\ Ocp.current_of r = default 0%Z (status !! "availableReplicas"))
  /\ (kind = "statefulsets" ->
      Ocp.desired_of r = default 1%Z (spec !! "replicas")
      /\ Ocp.current_of r = default 0%Z (status !! "readyReplicas"))
  /\ (kind = "daemonsets" ->
      Ocp.desired_of r = default 0%Z (status !! "desiredNumberScheduled")
      /\ Ocp.current_of r = default 0%Z (status !! "numberReady")).
Proof.
  unfold Ocp.calculate_status. cbv zeta.
  split; [|split]; intros ->; simpl; by repeat case_match.
Qed.

(** C4.  For every workload resource of the cluster agent, with the desired
    and current counts read off the object by its kind (Deployment: spec
    replicas and available replicas; StatefulSet: spec replicas and ready
    replicas; DaemonSet: desired-scheduled and number ready), the
    classification is: desired > 0 and current >= desired is Running/ok;
    desired > 0 and current = 0 is Down/error; desired > 0 and
    0 < current < desired is Degraded/warning; desired = 0 is
    ScaledDown/warning; and these counts are the ones returned.  The same
    four cases hold of the returned counts for any kind.  A Deployment with
    [spec.replicas = 3] and [status.availableReplicas = 0] gets status
    Down, severity error and the Replicas string 0/3. *)
Theorem calculate_status_classification :
  map snd Ocp.RESOURCES = map OcpSpec.kind_of OcpSpec.workloads
  /\ (forall w spec status,
      let desired := OcpSpec.desired w spec status in
      let current := OcpSpec.current w status in
      let r := Ocp.calculate_status (OcpSpec.kind_of w) spec status in
      ((0 < desired)%Z -> (desired <= current)%Z ->
       r = ("Running", "ok", desired, current))
      /\ ((0 < desired)%Z -> current = 0%Z ->
          r = ("Down", "error", desired, current))
      /\ ((0 < desired)%Z -> (0 < current < desired)%Z ->
          r = ("Degraded", "warning", desired, current))
      /\ (desired = 0%Z ->
          r = ("ScaledDown", "warning", desired, current)))
  /\ (forall kind spec status status_str severity desired current,
      Ocp.calculate_status kind spec status
      = (status_str, severity, desired, current) ->
      ((0 < desired)%Z -> (desired <= current)%Z ->
       status_str = "Running" /\ severity = "ok")
      /\ ((0 < desired)%Z -> current = 0%Z ->
          status_str = "Down" /\ severity = "error")
      /\ ((0 < desired)%Z -> (0 < current < desired)%Z ->
          status_str = "Degraded" /\ severity = "warning")
      /\ (desired = 0%Z ->
          status_str = "ScaledDown" /\ severity = "warning"))
  /\ (forall item,
      Ocp.spec_obj item !! "replicas" = Some 3%Z ->
      Ocp.status_obj item !! "availableReplicas" = Some 0%Z ->
      let resource := Ocp.resource_entry "deployments" item in
      dict_get resource "Status" = Some (Some "Down")
      /\ dict_get resource "Severity" = Some (Some "error")
      /\ dict_get resource "Replicas" = Some (Some "0/3")).
Proof.
  split; [reflexivity|]. split; [|split].
  - intros w spec status desired current r.
    assert (Hr : Ocp.desired_of r = desired /\ Ocp.current_of r = current).
    { pose proof (calculate_status_counts (OcpSpec.kind_of w) spec status)
        as (Hd & Hs & Hn).
      destruct w; [apply Hd|apply Hs|apply Hn]; reflexivity. }
    destruct Hr as [Hd Hc].
    pose proof (calculate_status_cases (OcpSpec.kind_of w) spec status) as H.
    cbv zeta in H. fold r in H. rewrite Hd, Hc in H.
    assert (Hshape : forall s v,
               Ocp.status_str_of r = s -> Ocp.severity_of r = v ->
               r = (s, v, desired, current)).
    { intros s v <- <-. rewrite <- Hd, <- Hc.
      by destruct r as [[[? ?] ?] ?]. }
    repeat split; intros; apply Hshape;
      destruct H as [H|[H|[H|H]]]; destruct_and?; first [done | lia].
  - intros kind spec status status_str severity desired current Heq.
    pose proof (calculate_status_cases kind spec status) as H.
    rewrite Heq in H. cbv zeta in H.
    unfold Ocp.status_str_of, Ocp.severity_of, Ocp.desired_of,
      Ocp.current_of in H. simpl in H.
    repeat split; intros; destruct H as [H|[H|[H|H]]];
      destruct_and?; subst; first [done | lia].
  - intros item Hs Hc. unfold Ocp.resource_entry, Ocp.calculate_status.
    rewrite Hs, Hc. by vm_compute.
Qed.

Lemma calculate_status_classification_witness :
  Ocp.calculate_status "statefulsets" {["replicas" := 3%Z]}
    {["readyReplicas" := 2%Z; "availableReplicas" := 0%Z]}
  = ("Degraded", "warning", 3%Z, 2%Z)
  /\ let resource :=
       Ocp.resource_entry "deployments"
         {| Ocp.name := Some "web"; Ocp.namespace := Some "shop";
            Ocp.creationTimestamp := Some "2025-03-12T00:32:50Z";
            Ocp.spec_obj := {["replicas" := 3%Z]};
            Ocp.status_obj := {["availableReplicas" := 0%Z]} |} in
     dict_get resource "Status" = Some (Some "Down")
     /\ dict_get resource "Severity" = Some (Some "error")
     /\ dict_get resource "Replicas" = Some (Some "0/3").
Proof.
  split.
  - exact (proj1 (proj2 (proj2
             (proj1 (proj2 calculate_status_classification)
                OcpSpec.StatefulSet {["replicas" := 3%Z]}
                {["readyReplicas" := 2%Z; "availableReplicas" := 0%Z]})))
             ltac:(by vm_compute) ltac:(by vm_compute)).
  - apply (proj2 (proj2 (proj2 calculate_status_classification)));
      reflexivity.
Defined.

(** C10.  For every kind and every [spec] and [status], the severity
    returned is one of ok, warning, error and the status one of Running,
    Down, Degraded, ScaledDown, each of which is returned for some input;
    the initial values info and Unknown are never returned. *)
Theorem calculate_status_range :
  (forall kind spec status,
      let r := Ocp.calculate_status kind spec status in
      Ocp.severity_of r ∈ ["ok"; "warning"; "error"]
      /\ Ocp.status_str_of r ∈ ["Running"; "Down"; "Degraded"; "ScaledDown"]
      /\ Ocp.severity_of r ≠ "info"
      /\ Ocp.status_str_of r ≠ "Unknown")
  /\ (forall severity, severity ∈ ["ok"; "warning"; "error"] ->
      exists kind spec status,
        Ocp.severity_of (Ocp.calculate_status kind spec status) = severity)
  /\ (forall status_str,
      status_str ∈ ["Running"; "Down"; "Degraded"; "ScaledDown"] ->
      exists kind spec status,
        Ocp.status_str_of (Ocp.calculate_status kind spec status) = status_str).
Proof.
  split; [|split].
  - intros kind spec status.
    pose proof (calculate_status_cases kind spec status) as H.
    cbv zeta in *.
    destruct H as [H|[H|[H|H]]]; destruct_and?;
      repeat match goal with H : _ = _ |- _ => rewrite H; clear H end;
      repeat split; solve [set_solver | done].
  - intros severity Hin.
    repeat (apply elem_of_cons in Hin as [->|Hin]);
      [| |
       |by apply elem_of_nil in Hin].
    + by exists "deployments", {["replicas" := 1%Z]},
        {["availableReplicas" := 1%Z]}.
    + by exists "deployments", {["replicas" := 0%Z]}, ∅.
    + by exists "deployments", {["replicas" := 1%Z]}, ∅.
  - intros status_str Hin.
    repeat (apply elem_of_cons in Hin as [->|Hin]);
      [| | |
       |by apply elem_of_nil in Hin].
    + by exists "deployments", {["replicas" := 1%Z]},
        {["availableReplicas" := 1%Z]}.
    + by exists "deployments", {["replicas" := 1%Z]}, ∅.
    + by exists "deployments", {["replicas" := 2%Z]},
        {["availableReplicas" := 1%Z]}.
    + by exists "deployments", {["replicas" := 0%Z]}, ∅.
Qed.

Lemma calculate_status_range_witness :
  exists kind spec status,
    Ocp.severity_of (Ocp.calculate_status kind spec status) = "error".
Proof.
  apply (proj1 (proj2 calculate_status_range) "error").
  repeat constructor.
Defined.

(** C9.  For a Deployment or StatefulSet whose [spec] has no [replicas]
    field the desired count is 1, not 0: with no available (ready) replica
    it is Down with severity error, and it is never ScaledDown.  ScaledDown
    is reached by these two kinds only through a [replicas] value written in
    the [spec]: a value that is not positive, which for a replica count
    (never negative) is the value 0. *)
Theorem missing_replicas_is_one (kind : string) (spec status : gmap string Z) :
  kind = "deployments" \/ kind = "statefulsets" ->
  let r := Ocp.calculate_status kind spec status in
  (spec !! "replicas" = None ->
   Ocp.desired_of r = 1%Z
   /\ Ocp.status_str_of r ≠ "ScaledDown"
   /\ (Ocp.current_of r = 0%Z ->
       Ocp.status_str_of r = "Down" /\ Ocp.severity_of r = "error"))
  /\ (spec !! "replicas" = None ->
      kind = "deployments" ->
      default 0%Z (status !! "availableReplicas") = 0%Z ->
      r = ("Down", "error", 1%Z, 0%Z))
  /\ (spec !! "replicas" = None ->
      kind = "statefulsets" ->
      default 0%Z (status !! "readyReplicas") = 0%Z ->
      r = ("Down", "error", 1%Z, 0%Z))
  /\ (Ocp.status_str_of r = "ScaledDown" ->
      exists v, spec !! "replicas" = Some v /\ (v <= 0)%Z)
  /\ ((forall v, spec !! "replicas" = Some v -> (0 <= v)%Z) ->
      (Ocp.status_str_of r = "ScaledDown" <-> spec !! "replicas" = Some 0%Z)).
Proof.
  intros Hkind r.
  assert (Hd : Ocp.desired_of r = default 1%Z (spec !! "replicas")).
  { destruct (calculate_status_counts kind spec status) as (Hdep & Hsts & _).
    destruct Hkind as [Hk|Hk]; [by apply Hdep|by apply Hsts]. }
  pose proof (calculate_status_cases kind spec status) as Hcases.
  cbv zeta in Hcases. fold r in Hcases.
  assert (Hscaled : Ocp.status_str_of r = "ScaledDown" <->
                    (Ocp.desired_of r <= 0)%Z).
  { destruct Hcases as [H|[H|[H|H]]]; destruct_and?; split; intros;
      first [done | lia | congruence]. }
  split; [|split; [|split; [|split]]].
  - intros Hnone. rewrite Hnone in Hd. simpl in Hd.
    split; [done|]. split.
    + rewrite Hscaled. lia.
    + intros Hc. destruct Hcases as [H|[H|[H|H]]]; destruct_and?;
        first [done | lia].
  - intros Hnone -> Hc. subst r. unfold Ocp.calculate_status.
    rewrite Hnone, Hc. reflexivity.
  - intros Hnone -> Hc. subst r. unfold Ocp.calculate_status.
    rewrite Hnone, Hc. reflexivity.
  - rewrite Hscaled, Hd. destruct (spec !! "replicas") as [v|]; simpl.
    + intros Hv. by exists v.
    + lia.
  - intros Hcount. rewrite Hscaled, Hd.
    destruct (spec !! "replicas") as [v|] eqn:Hv; simpl.
    + specialize (Hcount v eq_refl). split.
      * intros. f_equal. lia.
      * intros [= ->]. lia.
    + split; [lia|done].
Qed.

Lemma missing_replicas_is_one_witness :
  Ocp.calculate_status "statefulsets" ∅ {["readyReplicas" := 0%Z]}
  = ("Down", "error", 1%Z, 0%Z).
Proof.
  refine (proj1 (proj2 (proj2
    (missing_replicas_is_one "statefulsets" ∅ {["readyReplicas" := 0%Z]}
       (or_intror eq_refl)))) _ _ _); reflexivity.
Defined.

(** ** Ignore patterns of the host agent *)

Lemma startswith_spec s p :
  PyStr.startswith s p = true <-> exists rest, s = p +:+ rest.
Proof.
  revert s. induction p as [|a p IH]; intros s.
  - destruct s; split; simpl; eauto.
  - destruct s as [|b s]; simpl.
    + split; [done|]. by intros [rest ?].
    + destruct (Ascii.eqb_spec a b) as [->|Hne].
      * rewrite IH. split; intros [rest Hr]; exists rest.
        -- by rewrite Hr.
        -- by injection Hr.
      * split; [done|]. intros [rest Hr]. by injection Hr.
Qed.

Lemma endswith_char_spec p c :
  PyStr.endswith_char p c = true <-> exists stem, p = stem +:+ String c "".
Proof.
  induction p as [|a p IH]; simpl.
  - split; [done|]. by intros [[|??] ?].
  - destruct p as [|b p].
    + destruct (Ascii.eqb_spec a c) as [->|Hne]; split; try done.
      * by exists "".
      * intros [[|x [|??]] [= ?]]; by subst.
    + rewrite IH. split.
      * intros [stem ->]. by exists (String a stem).
      * intros [[|x stem] [= ? Hp]]; subst.
        by exists stem.
Qed.

Lemma drop_last_app stem c : PyStr.drop_last (stem +:+ String c "") = stem.
Proof.
  induction stem as [|a stem IH]; [done|].
  simpl. rewrite IH. by destruct stem.
Qed.

Lemma append_last_inj s1 s2 c :
  s1 +:+ String c "" = s2 +:+ String c "" -> s1 = s2.
Proof.
  intros H. by rewrite <-(drop_last_app s1 c), H, drop_last_app.
Qed.

(** One pattern against one name, as the loop body tests it. *)
Lemma pattern_test_spec pattern unit_name :
  (if PyStr.endswith_char pattern "*"
   then PyStr.startswith unit_name (PyStr.drop_last pattern)
   else bool_decide (pattern = unit_name)) = true
  <-> Linux.ignore_matches pattern unit_name.
Proof.
  unfold Linux.ignore_matches.
  destruct (PyStr.endswith_char pattern "*") eqn:Hend.
  - apply endswith_char_spec in Hend as [stem ->].
    rewrite drop_last_app, startswith_spec. split.
    + intros Hrest. left. by exists stem.
    + intros [(stem' & Heq & Hrest)|[Hno _]].
      * by apply append_last_inj in Heq as ->.
      * by destruct (Hno stem).
  - rewrite bool_decide_eq_true. split.
    + intros ->. right. split; [|done].
      intros stem ->.
      assert (PyStr.endswith_char (stem +:+ "*") "*" = true) as Ht
        by (apply endswith_char_spec; eauto).
      congruence.
    + intros [(stem & -> & _)|[_ ?]]; [|done].
      assert (PyStr.endswith_char (stem +:+ "*") "*" = true) as Ht
        by (apply endswith_char_spec; eauto).
      congruence.
Qed.

Lemma should_ignore_spec ignore_list unit_name :
  Linux.should_ignore ignore_list unit_name = true
  <-> exists pattern,
      pattern ∈ ignore_list /\ Linux.ignore_matches pattern unit_name.
Proof.
  induction ignore_list as [|pattern rest IH]; simpl.
  - split; [done|]. intros (p & Hin & _). by apply elem_of_nil in Hin.
  - pose proof (pattern_test_spec pattern unit_name) as Hp.
    destruct (PyStr.endswith_char pattern "*").
    + destruct (PyStr.startswith unit_name (PyStr.drop_last pattern)).
      * split; [|done]. intros _. exists pattern. split; [left|by apply Hp].
      * rewrite IH. split.
        -- intros (p & Hin & Hm). exists p. split; [by right|done].
        -- intros (p & Hin & Hm). apply elem_of_cons in Hin as [->|Hin].
           ++ by apply Hp in Hm.
           ++ by exists p.
    + destruct (bool_decide (pattern = unit_name)).
      * split; [|done]. intros _. exists pattern. split; [left|by apply Hp].
      * rewrite IH. split.
        -- intros (p & Hin & Hm). exists p. split; [by right|done].
        -- intros (p & Hin & Hm). apply elem_of_cons in Hin as [->|Hin].
           ++ by apply Hp in Hm.
           ++ by exists p.
Qed.

Lemma failed_services_loop ignore_list lines acc :
  fold_left
    (fun failed_services line =>
       if PyStr.nonempty_str line then
         match PyStr.first_token line with
         | Some service_name =>
             if negb (Linux.should_ignore ignore_list service_name)
             then failed_services ++ [service_name]
             else failed_services
         | None => failed_services
         end
       else failed_services)
    lines acc
  = acc ++ List.filter (fun u => negb (Linux.should_ignore ignore_list u))
                       (omap PyStr.first_token lines).
Proof.
  revert acc. induction lines as [|line lines IH]; intros acc; simpl.
  - by rewrite app_nil_r.
  - rewrite IH. destruct line as [|c line]; [done|].
    cbn [PyStr.nonempty_str].
    destruct (PyStr.first_token (String c line)) as [u|]; simpl; [|done].
    destruct (Linux.should_ignore ignore_list u); simpl; [done|].
    by rewrite <-app_assoc.
Qed.

(** C8.  Of the unit names the service manager reports as failed, the
    extractor leaves out exactly those that some ignore pattern matches (a
    pattern ending in [*] by prefix, any other pattern by equality) and
    keeps the others in the order of the report. *)
Theorem failed_services_ignore_patterns
    (stdout : string) (ignore_list : option (list string)) :
  let patterns := default Linux.DEFAULT_IGNORE_SERVICES ignore_list in
  let failed := Linux.get_failed_services (Some stdout) ignore_list in
  failed
  = List.filter (fun u => negb (Linux.should_ignore patterns u))
                (Linux.reported_units stdout)
  /\ (forall u, Linux.should_ignore patterns u = true
                <-> exists pattern,
                    pattern ∈ patterns /\ Linux.ignore_matches pattern u)
  /\ (forall u, u ∈ failed
                <-> u ∈ Linux.reported_units stdout
                    /\ ~ exists pattern,
                        pattern ∈ patterns /\ Linux.ignore_matches pattern u)
  /\ sublist failed (Linux.reported_units stdout).
Proof.
  intros patterns failed.
  assert (Hf : failed
    = List.filter (fun u => negb (Linux.should_ignore patterns u))
                  (Linux.reported_units stdout)).
  { unfold failed, Linux.get_failed_services, Linux.reported_units.
    cbv zeta. by rewrite failed_services_loop. }
  split; [done|]. split; [intros u; apply should_ignore_spec|]. split.
  - intros u. rewrite Hf, list_elem_of_In, List.filter_In,
      <-list_elem_of_In, negb_true_iff, <-should_ignore_spec.
    by destruct (Linux.should_ignore patterns u); intuition.
  - rewrite Hf. generalize (Linux.reported_units stdout). intros l.
    induction l as [|x l IH]; simpl; [constructor|].
    destruct (negb _); by constructor.
Qed.

Lemma failed_services_ignore_patterns_witness :
  exists pattern,
    pattern ∈ Linux.DEFAULT_IGNORE_SERVICES
    /\ Linux.ignore_matches pattern "apt-daily.timer".
Proof.
  apply (proj1 (proj2 (failed_services_ignore_patterns
                         "apt-daily.timer loaded failed failed" None))
           "apt-daily.timer").
  reflexivity.
Defined.

Example failed_services_report :
  Linux.get_failed_services
    (Some ("cron.service loaded failed failed Regular background jobs"
           +:+ String PyStr.nl "apt-daily.timer loaded failed failed Daily apt"
           +:+ String PyStr.nl "user@1000.service loaded failed failed User"
           +:+ String PyStr.nl "  nginx.service loaded failed failed A server"))
    (Some ["user@*"; "nginx"; "apt-daily.timer"])
  = ["cron.service"; "nginx.service"].
Proof. reflexivity. Qed.

(** ** Device blocks of the appliance agent *)

Lemma string_app_cons c (s t : string) : String c s +:+ t = String c (s +:+ t).
Proof. reflexivity. Qed.

Lemma cons_head_nonempty c blocks : PyStr.cons_head c blocks ≠ [].
Proof. by destruct blocks. Qed.

Lemma split_nlnl_nonempty s : PyStr.split_nlnl s ≠ [].
Proof.
  destruct s as [|c [|c' s]]; [done|done|].
  change (PyStr.split_nlnl (String c (String c' s)))
    with (if Ascii.eqb c PyStr.nl && Ascii.eqb c' PyStr.nl
          then "" :: PyStr.split_nlnl s
          else PyStr.cons_head c (PyStr.split_nlnl (String c' s))).
  destruct (_ && _); [done|apply cons_head_nonempty].
Qed.

Lemma join_cons_head sep c blocks :
  blocks ≠ [] ->
  PyStr.join sep (PyStr.cons_head c blocks)
  = String c (PyStr.join sep blocks).
Proof. destruct blocks as [|b [|b' bs]]; [done|done|done]. Qed.

Lemma join_empty_head sep blocks :
  blocks ≠ [] ->
  PyStr.join sep ("" :: blocks) = sep +:+ PyStr.join sep blocks.
Proof. by destruct blocks. Qed.

(** Joining the blocks with the separator gives the text back. *)
Lemma split_nlnl_join s :
  PyStr.join PyStr.blank (PyStr.split_nlnl s) = s.
Proof.
  enough (PyStr.join PyStr.blank (PyStr.split_nlnl s) = s
          /\ forall c, PyStr.join PyStr.blank (PyStr.split_nlnl (String c s))
                       = String c s) as [? _] by done.
  induction s as [|a s [IH1 IH2]].
  - by split.
  - split; [apply IH2|]. intros c.
    change (PyStr.split_nlnl (String c (String a s)))
      with (if Ascii.eqb c PyStr.nl && Ascii.eqb a PyStr.nl
            then "" :: PyStr.split_nlnl s
            else PyStr.cons_head c (PyStr.split_nlnl (String a s))).
    destruct (Ascii.eqb_spec c PyStr.nl) as [->|?];
      [destruct (Ascii.eqb_spec a PyStr.nl) as [->|?]|]; simpl andb; cbv iota.
    + rewrite join_empty_head by apply split_nlnl_nonempty.
      by rewrite IH1.
    + rewrite join_cons_head by apply split_nlnl_nonempty.
      by rewrite IH2.
    + rewrite join_cons_head by apply split_nlnl_nonempty.
      by rewrite IH2.
Qed.

Lemma has_blank_cons c s :
  PyStr.has_blank s = true -> PyStr.has_blank (String c s) = true.
Proof.
  destruct s as [|c' s]; [done|]. intros H.
  change (PyStr.has_blank (String c (String c' s)))
    with ((Ascii.eqb c PyStr.nl && Ascii.eqb c' PyStr.nl)
          || PyStr.has_blank (String c' s)).
  rewrite H. apply orb_true_r.
Qed.

Lemma occurs_blank s : PyStr.occurs PyStr.blank s -> PyStr.has_blank s = true.
Proof.
  intros (pre & post & ->). induction pre as [|c pre IH]; [done|].
  rewrite string_app_cons. by apply has_blank_cons.
Qed.

(** The first block is empty or starts with the first character. *)
Lemma split_nlnl_head s :
  match PyStr.split_nlnl s with
  | b :: _ => b = "" \/ exists c t u, s = String c t /\ b = String c u
  | [] => False
  end.
Proof.
  destruct s as [|c s]; simpl; [by left|].
  destruct s as [|c' s].
  - simpl. right. by exists c, "", "".
  - destruct (_ && _); [by left|].
    destruct (PyStr.split_nlnl (String c' s)) as [|b bs]; simpl; right;
      eauto.
Qed.

Lemma split_nlnl_no_blank s :
  Forall (fun b => PyStr.has_blank b = false) (PyStr.split_nlnl s).
Proof.
  enough (Forall (fun b => PyStr.has_blank b = false) (PyStr.split_nlnl s)
          /\ forall c, Forall (fun b => PyStr.has_blank b = false)
                              (PyStr.split_nlnl (String c s)))
    as [? _] by done.
  induction s as [|a s [IH1 IH2]].
  - split; [|intros c]; by repeat constructor.
  - split; [apply IH2|]. intros c.
    change (PyStr.split_nlnl (String c (String a s)))
      with (if Ascii.eqb c PyStr.nl && Ascii.eqb a PyStr.nl
            then "" :: PyStr.split_nlnl s
            else PyStr.cons_head c (PyStr.split_nlnl (String a s))).
    destruct (Ascii.eqb c PyStr.nl && Ascii.eqb a PyStr.nl) eqn:Hsep.
    + by constructor.
    + pose proof (split_nlnl_head (String a s)) as Hhead.
      specialize (IH2 a).
      destruct (PyStr.split_nlnl (String a s)) as [|b bs]; [done|].
      apply Forall_cons in IH2 as [Hb Hbs].
      simpl. constructor; [|done].
      destruct Hhead as [->|(c' & t & u & [= -> ->] & ->)]; [done|].
      change (PyStr.has_blank (String c (String c' u)))
        with ((Ascii.eqb c PyStr.nl && Ascii.eqb c' PyStr.nl)
              || PyStr.has_blank (String c' u)).
      by rewrite Hsep, Hb.
Qed.

(** *** The field expressions *)

Lemma after_prefix_spec p s rest :
  PyStr.after_prefix p s = Some rest <-> s = p +:+ rest.
Proof.
  revert s. induction p as [|a p IH]; intros s.
  - simpl. change ("" +:+ rest) with rest. split; congruence.
  - rewrite string_app_cons. destruct s as [|b s]; simpl; [done|].
    destruct (Ascii.eqb_spec a b) as [->|Hne].
    + rewrite IH. split; [by intros ->|by intros [= ->]].
    + split; [done|]. intros [= ? ?]. by subst.
Qed.

Lemma dot_star_spec s :
  exists post,
    s = PyStr.dot_star s +:+ post
    /\ PyStr.nl ∉ PyStr.chars (PyStr.dot_star s).
Proof.
  induction s as [|c s (post & Hs & Hnl)]; simpl.
  - exists "". split; [done|]. apply not_elem_of_nil.
  - destruct (Ascii.eqb_spec c PyStr.nl) as [->|Hne].
    + exists (String PyStr.nl s). split; [done|]. apply not_elem_of_nil.
    + exists post. rewrite string_app_cons, <-Hs. split; [done|].
      apply not_elem_of_cons. split; [congruence|done].
Qed.

Lemma dot_plus_spec s g :
  PyStr.dot_plus s = Some g ->
  exists post, s = g +:+ post /\ g ≠ "" /\ PyStr.nl ∉ PyStr.chars g.
Proof.
  unfold PyStr.dot_plus. destruct (dot_star_spec s) as (post & Hs & Hnl).
  destruct (PyStr.dot_star s) as [|c t] eqn:E; [done|].
  intros [= <-]. by exists post.
Qed.

Lemma spaces_then_group_spec s g :
  PyStr.spaces_then_group s = Some g ->
  exists ws post,
    s = ws +:+ g +:+ post
    /\ Forall (fun c => PyStr.is_space c = true) (PyStr.chars ws)
    /\ g ≠ "" /\ PyStr.nl ∉ PyStr.chars g.
Proof.
  revert g. induction s as [|c s IH]; intros g; simpl; [done|].
  assert (Hhere : PyStr.dot_plus (String c s) = Some g ->
    exists ws post,
      String c s = ws +:+ g +:+ post
      /\ Forall (fun c => PyStr.is_space c = true) (PyStr.chars ws)
      /\ g ≠ "" /\ PyStr.nl ∉ PyStr.chars g).
  { intros (post & Hs & Hg)%dot_plus_spec. exists "", post.
    split; [done|]. split; [constructor|done]. }
  destruct (PyStr.is_space c) eqn:Hc; [|done].
  destruct (PyStr.spaces_then_group s) as [g'|]; [|done].
  intros [= <-]. destruct (IH g' eq_refl) as (ws & post & -> & Hws & Hg).
  exists (String c ws), post. split; [done|]. split; [|done].
  simpl. by constructor.
Qed.

(** A match of a field expression: the label occurs in the block, then
    white space, then the group, which is not empty and stays on one line. *)
Lemma re_search_spec lit s g :
  PyStr.re_search lit s = Some g ->
  exists pre ws post,
    s = pre +:+ lit +:+ ws +:+ g +:+ post
    /\ Forall (fun c => PyStr.is_space c = true) (PyStr.chars ws)
    /\ g ≠ "" /\ PyStr.nl ∉ PyStr.chars g.
Proof.
  assert (Hhere : forall s, PyStr.match_here lit s = Some g ->
    exists pre ws post,
      s = pre +:+ lit +:+ ws +:+ g +:+ post
      /\ Forall (fun c => PyStr.is_space c = true) (PyStr.chars ws)
      /\ g ≠ "" /\ PyStr.nl ∉ PyStr.chars g).
  { intros s0. unfold PyStr.match_here.
    destruct (PyStr.after_prefix lit s0) as [rest|] eqn:E; [|done].
    apply after_prefix_spec in E as ->.
    intros (ws & post & -> & Hg)%spaces_then_group_spec.
    by exists "", ws, post. }
  induction s as [|c s IH]; simpl.
  - destruct (PyStr.match_here lit "") eqn:E; [|done].
    intros [= ->]. by apply Hhere.
  - destruct (PyStr.match_here lit (String c s)) eqn:E.
    + intros [= ->]. by apply Hhere.
    + intros (pre & ws & post & -> & Hg)%IH.
      by exists (String c pre), ws, post.
Qed.

Lemma re_search_absent lit s :
  ~ PyStr.occurs lit s -> PyStr.re_search lit s = None.
Proof.
  intros Hno. destruct (PyStr.re_search lit s) as [g|] eqn:E; [|done].
  apply re_search_spec in E as (pre & ws & post & -> & _).
  destruct Hno. by exists pre, (ws +:+ g +:+ post).
Qed.

Lemma spaces_then_group_found ws c rest :
  Forall (fun c => PyStr.is_space c = true) (PyStr.chars ws) ->
  PyStr.is_space c = false ->
  PyStr.spaces_then_group (ws +:+ String c rest)
  = Some (PyStr.dot_star (String c rest)).
Proof.
  intros Hws Hc.
  assert (Hnl : Ascii.eqb c PyStr.nl = false).
  { destruct (Ascii.eqb_spec c PyStr.nl) as [->|?]; [done|done]. }
  assert (Hplus : PyStr.dot_plus (String c rest)
                  = Some (PyStr.dot_star (String c rest))).
  { unfold PyStr.dot_plus. simpl. by rewrite Hnl. }
  induction ws as [|a ws IH].
  - change ("" +:+ String c rest) with (String c rest).
    simpl PyStr.spaces_then_group. by rewrite Hc.
  - rewrite string_app_cons. simpl in Hws.
    apply Forall_cons in Hws as [Ha Hws].
    simpl PyStr.spaces_then_group. by rewrite Ha, IH.
Qed.

(** The field is found when its label is followed, after white space, by a
    character that is not white space, and no earlier position of the block
    starts with the label: the group runs to the end of that line. *)
Lemma re_search_found lit pre ws c rest :
  (forall pre1 pre2,
      pre = pre1 +:+ pre2 -> pre2 ≠ "" ->
      PyStr.after_prefix lit (pre2 +:+ lit +:+ ws +:+ String c rest) = None) ->
  Forall (fun c => PyStr.is_space c = true) (PyStr.chars ws) ->
  PyStr.is_space c = false ->
  PyStr.re_search lit (pre +:+ lit +:+ ws +:+ String c rest)
  = Some (PyStr.dot_star (String c rest)).
Proof.
  intros Hfirst Hws Hc.
  assert (Hhere : PyStr.re_search lit (lit +:+ ws +:+ String c rest)
                  = Some (PyStr.dot_star (String c rest))).
  { assert (PyStr.match_here lit (lit +:+ ws +:+ String c rest)
            = Some (PyStr.dot_star (String c rest))) as Hm.
    { unfold PyStr.match_here.
      rewrite (proj2 (after_prefix_spec lit _ (ws +:+ String c rest)) eq_refl).
      by apply spaces_then_group_found. }
    destruct (lit +:+ ws +:+ String c rest); simpl; by rewrite Hm. }
  induction pre as [|a pre IH].
  - exact Hhere.
  - rewrite string_app_cons. simpl PyStr.re_search.
    unfold PyStr.match_here at 1.
    rewrite <-string_app_cons, (Hfirst "" (String a pre)) by done.
    apply IH.
    intros pre1 pre2 -> Hne. by apply (Hfirst (String a pre1) pre2).
Qed.

Lemma get_errors_loop blocks acc :
  fold_left
    (fun errors device =>
       let name_match := PyStr.re_search "Device Name:" device in
       let state_match := PyStr.re_search "State:" device in
       match name_match, state_match with
       | Some name_group, Some state_group =>
           let name := PyStr.strip name_group in
           let state := PyStr.strip state_group in
           if bool_decide (state ≠ "OK")
           then errors ++ [name +:+ ": " +:+ state]
           else errors
       | _, _ => errors
       end)
    blocks acc
  = acc ++ concat (map Checkpoint.device_report blocks).
Proof.
  revert acc. induction blocks as [|b blocks IH]; intros acc; simpl.
  - by rewrite app_nil_r.
  - rewrite IH. unfold Checkpoint.device_report, Checkpoint.field.
    destruct (PyStr.re_search "Device Name:" b) as [n|]; simpl; [|done].
    destruct (PyStr.re_search "State:" b) as [st|]; simpl; [|done].
    destruct (decide (PyStr.strip st = "OK")) as [Hok|Hno].
    + by rewrite bool_decide_eq_false_2, bool_decide_eq_true_2 by naive_solver.
    + rewrite bool_decide_eq_true_2, bool_decide_eq_false_2 by done.
      by rewrite <-app_assoc.
Qed.

Lemma get_errors_concat output :
  Checkpoint.get_errors output
  = concat (map Checkpoint.device_report (PyStr.split_nlnl output)).
Proof. unfold Checkpoint.get_errors. cbv zeta. by rewrite get_errors_loop. Qed.

Lemma field_absent label block :
  ~ PyStr.occurs label block -> Checkpoint.field label block = None.
Proof.
  intros H. unfold Checkpoint.field. by rewrite re_search_absent.
Qed.

(** C7.  The health-device text is cut at each pair of line feeds into
    blocks (joining the blocks with that separator gives the text back, and
    no block contains the separator); the list of errors is made of what
    the blocks contribute, in order; a block contributes the one string
    [name: state] when both fields are found in it and the state is not
    [OK], and nothing when the state is [OK] or one of the two fields is
    not found (as when its label does not occur in the block).  The text with the block [Sync]/[OK] and the block
    [Filter]/[DOWN] gives the list [Filter: DOWN], and the run is
    classified error. *)
Theorem device_errors_by_block :
  (forall output,
      let blocks := PyStr.split_nlnl output in
      PyStr.join PyStr.blank blocks = output
      /\ (forall block, block ∈ blocks -> ~ PyStr.occurs PyStr.blank block)
      /\ Checkpoint.get_errors output
         = concat (map Checkpoint.device_report blocks))
  /\ (forall block name state,
      Checkpoint.field "Device Name:" block = Some name ->
      Checkpoint.field "State:" block = Some state ->
      (state ≠ "OK" ->
       Checkpoint.device_report block = [name +:+ ": " +:+ state])
      /\ (state = "OK" -> Checkpoint.device_report block = []))
  /\ (forall block,
      Checkpoint.field "Device Name:" block = None
      \/ Checkpoint.field "State:" block = None ->
      Checkpoint.device_report block = [])
  /\ (forall label block,
      ~ PyStr.occurs label block -> Checkpoint.field label block = None)
  /\ Checkpoint.get_errors Checkpoint.sync_ok_filter_down = ["Filter: DOWN"]
  /\ (forall cpu mx mem st heavy w e,
      Checkpoint.calculate_severity cpu mx mem st
        (Checkpoint.get_errors Checkpoint.sync_ok_filter_down) heavy w e
      = "error").
Proof.
  split; [|split; [|split; [|split; [|split]]]].
  - intros output blocks. split; [apply split_nlnl_join|]. split.
    + intros block Hin Hocc. apply occurs_blank in Hocc.
      pose proof (split_nlnl_no_blank output) as Hall.
      rewrite Forall_forall in Hall. specialize (Hall block Hin).
      congruence.
    + apply get_errors_concat.
  - intros block name state Hn Hs. unfold Checkpoint.device_report.
    rewrite Hn, Hs. split; intros H.
    + by rewrite bool_decide_eq_false_2.
    + by rewrite bool_decide_eq_true_2.
  - intros block [H|H]; unfold Checkpoint.device_report; rewrite H.
    + done.
    + by destruct (Checkpoint.field "Device Name:" block).
  - apply field_absent.
  - by vm_compute.
  - intros. by destruct heavy.
Qed.

Lemma device_errors_by_block_witness :
  Checkpoint.device_report
    ("Device Name: Filter" +:+ String PyStr.nl "State: DOWN")
  = ["Filter" +:+ ": " +:+ "DOWN"].
Proof.
  refine (proj1 (proj1 (proj2 device_errors_by_block)
    ("Device Name: Filter" +:+ String PyStr.nl "State: DOWN")
    "Filter" "DOWN" _ _) _).
  - vm_compute. reflexivity.
  - vm_compute. reflexivity.
  - discriminate.
Defined.

(** ** The wire body *)

Lemma severity_name_listed s :
  bool_decide (severity_name s ∈ ["ok"; "warning"; "error"]) = true.
Proof. apply bool_decide_eq_true_2. destruct s; set_solver. Qed.

Lemma linux_main_envelope float_str hostname cpu mem disks services w e pn sn :
  is_envelope (Linux.main float_str hostname cpu mem disks services w e pn sn)
  = true.
Proof.
  unfold Linux.main, Linux.build_payload. cbv zeta.
  rewrite linux_severity_max.
  cbn [is_envelope length Nat.eqb andb dict_get is_str is_payload_object
       is_severity_str bool_decide decide_rel].
  change (is_severity_str
            (Some (VStr (severity_name
               (max_of (Linux.rules cpu mem disks services w e))))) = true).
  apply severity_name_listed.
Qed.

Lemma checkpoint_main_envelope float_str hostname mem_str cpu mx heavy_cpus mem
    total free st errors heavy w e pn sn :
  is_envelope
    (Checkpoint.main float_str hostname mem_str cpu mx heavy_cpus mem total
       free st errors heavy w e pn sn) = true.
Proof.
  unfold Checkpoint.main, Checkpoint.build_payload. cbv zeta.
  rewrite checkpoint_severity_max.
  change (is_severity_str
            (Some (VStr (severity_name
               (max_of (Checkpoint.rules cpu mx mem st errors heavy w e)))))
          = true).
  apply severity_name_listed.
Qed.

Lemma resource_entry_fields kind item :
  exists status_str severity replicas,
    Ocp.resource_entry kind item
    = [("Id", Ocp.name item); ("Name", Ocp.name item);
       ("Namespace", Ocp.namespace item); ("Status", Some status_str);
       ("Severity", Some severity);
       ("ClusterCreatedAt", Ocp.creationTimestamp item);
       ("Replicas", Some replicas)]
    /\ severity
       = Ocp.severity_of
           (Ocp.calculate_status kind (Ocp.spec_obj item) (Ocp.status_obj item)).
Proof.
  unfold Ocp.resource_entry.
  destruct (Ocp.calculate_status kind (Ocp.spec_obj item) (Ocp.status_obj item))
    as [[[status_str severity] desired] current].
  by eexists _, _, _.
Qed.

Lemma resource_entry_no_name_key kind item :
  dict_get (Ocp.resource_entry kind item) "name" = None.
Proof.
  destruct (resource_entry_fields kind item) as (st & sev & rep & -> & _).
  reflexivity.
Qed.

(** C5, as stated, fails on the cluster agent.  The wire body for one
    Deployment: the value bound to [payload] is a string, not an object, so
    the body is not an envelope. *)
Lemma cluster_payload_is_a_string :
  let item :=
    {| Ocp.name := Some "web"; Ocp.namespace := Some "shop";
       Ocp.creationTimestamp := None;
       Ocp.spec_obj := {["replicas" := 3%Z]};
       Ocp.status_obj := ∅ |} in
  let body :=
    Ocp.request_body "Deployments" (Ocp.resource_entry "deployments" item) in
  is_envelope body = false
  /\ is_payload_object (body_get body "payload") = false
  /\ is_str (body_get body "payload") = true.
Proof. by vm_compute. Qed.

(** C5, amended.  The wire body of the host agent and of the appliance agent
    is an envelope: [projectName] and [systemName] are strings and [payload]
    is an object with string fields [Id], [Name] and a [Severity] among ok,
    warning, error.  The wire body of the cluster agent has the same three
    keys with [payload] bound to a string, the JSON text of the resource
    record; in that record [Id] and [Name] are the metadata name (null when
    it is absent) and [Severity] is one of ok, warning, error. *)
Theorem wire_body_shapes :
  (forall float_str hostname cpu mem disks services w e pn sn,
      is_envelope
        (Linux.main float_str hostname cpu mem disks services w e pn sn)
      = true)
  /\ (forall float_str hostname mem_str cpu mx heavy_cpus mem total free st
             errors heavy w e pn sn,
      is_envelope
        (Checkpoint.main float_str hostname mem_str cpu mx heavy_cpus mem
           total free st errors heavy w e pn sn) = true)
  /\ (forall project_name resource,
      let body := Ocp.request_body project_name resource in
      body_get body "projectName" = Some (VStr project_name)
      /\ body_get body "systemName" = Some (VStr "OpenShift")
      /\ body_get body "payload"
         = Some (VStr (Json.dumps (Ocp.resource_value resource)))
      /\ is_envelope body = false)
  /\ (forall kind item,
      let record := Ocp.resource_value (Ocp.resource_entry kind item) in
      body_get record "Id" = Some (Ocp.field_value (Ocp.name item))
      /\ body_get record "Name" = Some (Ocp.field_value (Ocp.name item))
      /\ is_severity_str (body_get record "Severity") = true).
Proof.
  split; [|split; [|split]].
  - intros. apply linux_main_envelope.
  - intros. apply checkpoint_main_envelope.
  - intros project_name resource. by repeat split.
  - intros kind item.
    destruct (resource_entry_fields kind item) as (st & sev & rep & -> & ->).
    split; [done|]. split; [done|].
    destruct (calculate_status_cases kind (Ocp.spec_obj item)
                (Ocp.status_obj item)) as [H|[H|[H|H]]];
      destruct_and?;
      change (bool_decide
        (Ocp.severity_of
           (Ocp.calculate_status kind (Ocp.spec_obj item) (Ocp.status_obj item))
         ∈ ["ok"; "warning"; "error"]) = true);
      match goal with H : Ocp.severity_of _ = _ |- _ => rewrite H end;
      done.
Qed.

(** ** The posting loop of the cluster agent *)

(** A failed POST of a resource built by the agent ends in a [KeyError]
    that nothing catches: the resource has the key [Name], the two messages
    ask for [name]. *)
Lemma post_one_failure kind item outcome :
  (match outcome with
   | Ocp.Response status_code _ =>
       (status_code <? 200)%Z || (300 <=? status_code)%Z = true
   | Ocp.PostRaises _ => True
   end) ->
  Ocp.post_one (Ocp.resource_entry kind item) outcome
  = inr (Ocp.KeyError "name").
Proof.
  unfold Ocp.post_one, Ocp.try_block, Ocp.except_block.
  rewrite resource_entry_no_name_key.
  destruct outcome as [code text|msg]; [|done].
  by intros ->.
Qed.

Lemma post_one_success resource status_code text :
  (status_code <? 200)%Z || (300 <=? status_code)%Z = false ->
  Ocp.post_one resource (Ocp.Response status_code text) = inl [].
Proof. unfold Ocp.post_one, Ocp.try_block. by intros ->. Qed.

Lemma post_loop_head_failure project_name kind item rest outcomes st :
  (match outcomes (length (Ocp.posted st)) with
   | Ocp.Response status_code _ =>
       (status_code <? 200)%Z || (300 <=? status_code)%Z = true
   | Ocp.PostRaises _ => True
   end) ->
  Ocp.post_loop project_name (Ocp.resource_entry kind item :: rest)
    outcomes st
  = ({| Ocp.posted :=
          Ocp.posted st
          ++ [Ocp.request_body project_name (Ocp.resource_entry kind item)];
        Ocp.printed := Ocp.printed st |},
     Some (Ocp.KeyError "name")).
Proof.
  intros Hfail. simpl. by rewrite post_one_failure.
Qed.

(** Without a failure every resource is posted and the loop ends. *)
Lemma post_loop_all_accepted project_name resource_list outcomes st :
  (forall i, exists text, outcomes i = Ocp.Response 200 text) ->
  Ocp.post_loop project_name resource_list outcomes st
  = ({| Ocp.posted :=
          Ocp.posted st ++ map (Ocp.request_body project_name) resource_list;
        Ocp.printed := Ocp.printed st |},
     None).
Proof.
  intros Hok. revert st.
  induction resource_list as [|resource rest IH]; intros st; simpl.
  - rewrite app_nil_r. by destruct st.
  - destruct (Hok (length (Ocp.posted st))) as [text ->].
    rewrite post_one_success by done.
    rewrite IH. simpl. by rewrite app_nil_r, <-app_assoc.
Qed.

(** C6, on the code.  With two resources of the first kind to post, when
    the first POST is answered with status 500, or raises, the run is left
    through a [KeyError] for the key [name]: only the first body has been
    handed to the HTTP client, nothing is printed after the count, and the
    second resource is not posted.  When every POST is answered with status
    200 all resources of all kinds are posted and the run ends normally. *)
Theorem post_failure_stops_the_loop :
  forall item1 item2,
    let run_oc := fun _ : string => Some [item1; item2] in
    let body project_name k8s_kind item :=
      Ocp.request_body project_name (Ocp.resource_entry k8s_kind item) in
    let stopped :=
      ({| Ocp.posted := [body "Deployments" "deployments" item1];
          Ocp.printed := ["Collecting deployments...";
                          "Found 2 resources for Deployments"] |},
       Some (Ocp.KeyError "name")) in
    Ocp.collect_and_push run_oc
      (fun n => match n with
                | O => Ocp.Response 500 "Internal Server Error"
                | S _ => Ocp.Response 200 ""
                end)
    = stopped
    /\ Ocp.collect_and_push run_oc
         (fun n => match n with
                   | O => Ocp.PostRaises "Connection refused"
                   | S _ => Ocp.Response 200 ""
                   end)
       = stopped
    /\ (let '(st, e) :=
          Ocp.collect_and_push run_oc (fun _ => Ocp.Response 200 "") in
        e = None
        /\ Ocp.posted st
           = [body "Deployments" "deployments" item1;
              body "Deployments" "deployments" item2;
              body "Statefulsets" "statefulsets" item1;
              body "Statefulsets" "statefulsets" item2;
              body "Daemonsets" "daemonsets" item1;
              body "Daemonsets" "daemonsets" item2]).
Proof.
  intros item1 item2 run_oc body stopped.
  unfold Ocp.collect_and_push, Ocp.RESOURCES, Ocp.push_kinds, Ocp.push_kind.
  cbv zeta. unfold run_oc. simpl map.
  split; [|split].
  - by rewrite post_loop_head_failure.
  - by rewrite post_loop_head_failure.
  - rewrite !post_loop_all_accepted by eauto. done.
Qed.

(** * Further properties of the agents *)

(** ** The classifiers, case by case *)

Lemma severity_name_inj a b : severity_name a = severity_name b -> a = b.
Proof. by destruct a, b. Qed.

Lemma max_of_error l : max_of l = SevError <-> Exists (fun r => r = SevError) l.
Proof.
  induction l as [|x l IH].
  - split; [done|]. by intros ?%Exists_nil.
  - rewrite max_of_cons, Exists_cons, <-IH.
    destruct x, (max_of l); vm_compute; intuition congruence.
Qed.

Lemma max_of_ok l : max_of l = SevOk <-> Forall (fun r => r = SevOk) l.
Proof.
  induction l as [|x l IH].
  - split; [constructor|done].
  - rewrite max_of_cons, Forall_cons, <-IH.
    destruct x, (max_of l); vm_compute; intuition congruence.
Qed.

Lemma max_of_warning l :
  max_of l = SevWarning -> Exists (fun r => r = SevWarning) l.
Proof.
  induction l as [|x l IH]; [done|].
  rewrite max_of_cons, Exists_cons.
  destruct x, (max_of l) eqn:E; vm_compute; intuition congruence.
Qed.

Lemma rule_threshold_error x w e :
  rule_threshold x w e = SevError <-> ge_int x e = true.
Proof. unfold rule_threshold. by destruct (ge_int x e), (ge_int x w). Qed.

Lemma rule_threshold_ok x w e :
  rule_threshold x w e = SevOk <-> ge_int x w = false /\ ge_int x e = false.
Proof.
  unfold rule_threshold.
  destruct (ge_int x e), (ge_int x w); intuition congruence.
Qed.

Lemma rule_presence_error {A} (l : list A) :
  rule_presence l = SevError <-> l ≠ [].
Proof. by destruct l. Qed.

Lemma rule_presence_ok {A} (l : list A) : rule_presence l = SevOk <-> l = [].
Proof. by destruct l. Qed.

Lemma disk_rules_error disks w e :
  Exists (fun r => r = SevError)
    (map (fun d => rule_threshold (Linux.used_percent d) w e) disks)
  <-> Exists (fun d => ge_int (Linux.used_percent d) e = true) disks.
Proof.
  induction disks as [|d disks IH]; simpl.
  - by rewrite !Exists_nil.
  - by rewrite !Exists_cons, IH, rule_threshold_error.
Qed.

Lemma disk_rules_ok disks w e :
  Forall (fun r => r = SevOk)
    (map (fun d => rule_threshold (Linux.used_percent d) w e) disks)
  <-> Forall (fun d => ge_int (Linux.used_percent d) w = false
                       /\ ge_int (Linux.used_percent d) e = false) disks.
Proof.
  induction disks as [|d disks IH]; simpl.
  - split; constructor.
  - by rewrite !Forall_cons, IH, rule_threshold_ok.
Qed.

Lemma linux_verdict cpu mem disks failed w e :
  let s := Linux.calculate_severity cpu mem disks failed w e in
  (s = "error" <->
   ge_int cpu e = true \/ ge_int mem e = true
   \/ Exists (fun d => ge_int (Linux.used_percent d) e = true) disks
   \/ failed ≠ [])
  /\ (s = "ok" <->
      (ge_int cpu w = false /\ ge_int cpu e = false)
      /\ (ge_int mem w = false /\ ge_int mem e = false)
      /\ Forall (fun d => ge_int (Linux.used_percent d) w = false
                          /\ ge_int (Linux.used_percent d) e = false) disks
      /\ failed = [])
  /\ (s = "ok" \/ s = "warning" \/ s = "error").
Proof.
  intros s. subst s. rewrite linux_severity_max.
  set (m := max_of _).
  assert (Herr : m = SevError <->
    ge_int cpu e = true \/ ge_int mem e = true
    \/ Exists (fun d => ge_int (Linux.used_percent d) e = true) disks
    \/ failed ≠ []).
  { unfold m, Linux.rules. rewrite max_of_error.
    rewrite !Exists_app, !Exists_cons, !Exists_nil, disk_rules_error.
    rewrite !rule_threshold_error, rule_presence_error. tauto. }
  assert (Hok : m = SevOk <->
    (ge_int cpu w = false /\ ge_int cpu e = false)
    /\ (ge_int mem w = false /\ ge_int mem e = false)
    /\ Forall (fun d => ge_int (Linux.used_percent d) w = false
                        /\ ge_int (Linux.used_percent d) e = false) disks
    /\ failed = []).
  { unfold m, Linux.rules. rewrite max_of_ok.
    rewrite !Forall_app, !Forall_cons, !Forall_nil, disk_rules_ok.
    rewrite !rule_threshold_ok, rule_presence_ok. tauto. }
  split; [|split].
  - rewrite <-Herr. split; [apply (severity_name_inj _ SevError)|by intros ->].
  - rewrite <-Hok. split; [apply (severity_name_inj _ SevOk)|by intros ->].
  - destruct m; auto.
Qed.

(** X1.  The verdict of the host agent, case by case: error exactly when the CPU,
    the memory or some disk is at or above the error threshold or a service
    is reported; ok exactly when every value is below both thresholds and
    no service is reported; warning otherwise. *)
Theorem linux_severity_cases cpu mem disks failed w e :
  let s := Linux.calculate_severity cpu mem disks failed w e in
  (s = "error" <->
   ge_int cpu e = true \/ ge_int mem e = true
   \/ Exists (fun d => ge_int (Linux.used_percent d) e = true) disks
   \/ failed ≠ [])
  /\ (s = "ok" <->
      (ge_int cpu w = false /\ ge_int cpu e = false)
      /\ (ge_int mem w = false /\ ge_int mem e = false)
      /\ Forall (fun d => ge_int (Linux.used_percent d) w = false
                          /\ ge_int (Linux.used_percent d) e = false) disks
      /\ failed = [])
  /\ (s = "ok" \/ s = "warning" \/ s = "error").
Proof. apply linux_verdict. Qed.

Lemma linux_severity_cases_witness :
  Linux.calculate_severity (Finite 40) (Finite 97) [] [] 85 95 = "error".
Proof.
  apply (proj1 (linux_severity_cases (Finite 40) (Finite 97) [] [] 85 95)).
  right. left. reflexivity.
Defined.

Lemma rule_cpu_error avg mx w e :
  Checkpoint.rule_cpu avg mx w e = SevError
  <-> ge_int avg e = true \/ ge_int mx e = true.
Proof.
  unfold Checkpoint.rule_cpu.
  destruct (ge_int avg e), (ge_int mx e), (ge_int avg w), (ge_int mx w);
    simpl; intuition congruence.
Qed.

Lemma rule_cpu_ok avg mx w e :
  Checkpoint.rule_cpu avg mx w e = SevOk
  <-> (ge_int avg w = false /\ ge_int avg e = false)
      /\ (ge_int mx w = false /\ ge_int mx e = false).
Proof.
  unfold Checkpoint.rule_cpu.
  destruct (ge_int avg e), (ge_int mx e), (ge_int avg w), (ge_int mx w);
    simpl; intuition congruence.
Qed.

Lemma rule_cluster_role_error st :
  Checkpoint.rule_cluster_role st = SevError
  <-> PyStr.lower st ∈ ["down"; "problem"; "error"; "unknown"].
Proof.
  unfold Checkpoint.rule_cluster_role. case_bool_decide; intuition congruence.
Qed.

Lemma rule_cluster_role_ok st :
  Checkpoint.rule_cluster_role st = SevOk
  <-> PyStr.lower st ∉ ["down"; "problem"; "error"; "unknown"].
Proof.
  unfold Checkpoint.rule_cluster_role. case_bool_decide; intuition congruence.
Qed.

Lemma checkpoint_verdict cpu mx mem st errors heavy w e :
  let s := Checkpoint.calculate_severity cpu mx mem st errors heavy w e in
  let bad := (PyStr.lower st ∈ ["down"; "problem"; "error"; "unknown"]) in
  (s = "error" <->
   ge_int cpu e = true \/ ge_int mx e = true \/ ge_int mem e = true
   \/ bad \/ errors ≠ [] \/ heavy ≠ [])
  /\ (s = "ok" <->
      (ge_int cpu w = false /\ ge_int cpu e = false)
      /\ (ge_int mx w = false /\ ge_int mx e = false)
      /\ (ge_int mem w = false /\ ge_int mem e = false)
      /\ ~ bad /\ errors = [] /\ heavy = [])
  /\ (s = "ok" \/ s = "warning" \/ s = "error").
Proof.
  intros s bad. subst s bad. rewrite checkpoint_severity_max.
  set (m := max_of _).
  assert (Herr : m = SevError <->
    ge_int cpu e = true \/ ge_int mx e = true \/ ge_int mem e = true
    \/ PyStr.lower st ∈ ["down"; "problem"; "error"; "unknown"]
    \/ errors ≠ [] \/ heavy ≠ []).
  { unfold m, Checkpoint.rules. rewrite max_of_error.
    rewrite !Exists_cons, !Exists_nil, rule_cpu_error, rule_threshold_error,
      rule_cluster_role_error, !rule_presence_error. tauto. }
  assert (Hok : m = SevOk <->
    (ge_int cpu w = false /\ ge_int cpu e = false)
    /\ (ge_int mx w = false /\ ge_int mx e = false)
    /\ (ge_int mem w = false /\ ge_int mem e = false)
    /\ (PyStr.lower st ∉ ["down"; "problem"; "error"; "unknown"])
    /\ errors = [] /\ heavy = []).
  { unfold m, Checkpoint.rules. rewrite max_of_ok.
    rewrite !Forall_cons, !Forall_nil, rule_cpu_ok, rule_threshold_ok,
      rule_cluster_role_ok, !rule_presence_ok. tauto. }
  split; [|split].
  - rewrite <-Herr. split; [apply (severity_name_inj _ SevError)|by intros ->].
  - rewrite <-Hok. split; [apply (severity_name_inj _ SevOk)|by intros ->].
  - destruct m; auto.
Qed.

(** X2.  The verdict of the appliance agent, case by case: error exactly when the
    average or maximum CPU or the memory is at or above the error threshold,
    the lower-cased cluster state is a bad one, or a device error or heavy
    connection is listed; ok exactly when all three values are below both
    thresholds, the state is not a bad one and both lists are empty. *)
Theorem checkpoint_severity_cases cpu mx mem st errors heavy w e :
  let s := Checkpoint.calculate_severity cpu mx mem st errors heavy w e in
  let bad := (PyStr.lower st ∈ ["down"; "problem"; "error"; "unknown"]) in
  (s = "error" <->
   ge_int cpu e = true \/ ge_int mx e = true \/ ge_int mem e = true
   \/ bad \/ errors ≠ [] \/ heavy ≠ [])
  /\ (s = "ok" <->
      (ge_int cpu w = false /\ ge_int cpu e = false)
      /\ (ge_int mx w = false /\ ge_int mx e = false)
      /\ (ge_int mem w = false /\ ge_int mem e = false)
      /\ ~ bad /\ errors = [] /\ heavy = [])
  /\ (s = "ok" \/ s = "warning" \/ s = "error").
Proof. apply checkpoint_verdict. Qed.

Lemma checkpoint_severity_cases_witness :
  Checkpoint.calculate_severity (Finite 20) (Finite 99) (Finite 30) "Active"
    [] [] 85 95 = "error".
Proof.
  apply (proj1 (checkpoint_severity_cases (Finite 20) (Finite 99) (Finite 30)
                  "Active" [] [] 85 95)).
  right. left. reflexivity.
Defined.

(** ** Thresholds the wrong way round *)

Lemma ge_int_threshold_mono x t t' :
  (t' <= t)%Z -> ge_int x t = true -> ge_int x t' = true.
Proof.
  intros Hle. destruct x as [| |q|]; simpl; try done.
  rewrite !Qle_bool_iff. intros Hq.
  apply Qle_trans with (inject_Z t); [|done].
  by rewrite <-Zle_Qle.
Qed.

Lemma rule_threshold_no_warning x w e :
  (e <= w)%Z -> rule_threshold x w e ≠ SevWarning.
Proof.
  intros Hle. unfold rule_threshold.
  destruct (ge_int x e) eqn:He; [done|].
  destruct (ge_int x w) eqn:Hw; [|done].
  rewrite (ge_int_threshold_mono x w e Hle Hw) in He. done.
Qed.

Lemma rule_cpu_no_warning avg mx w e :
  (e <= w)%Z -> Checkpoint.rule_cpu avg mx w e ≠ SevWarning.
Proof.
  intros Hle. unfold Checkpoint.rule_cpu.
  destruct (ge_int avg e || ge_int mx e) eqn:He; [done|].
  destruct (ge_int avg w || ge_int mx w) eqn:Hw; [|done].
  apply orb_false_iff in He as [He1 He2].
  apply orb_true_iff in Hw as [H|H];
    apply (ge_int_threshold_mono _ w e Hle) in H; congruence.
Qed.

Lemma rule_presence_no_warning {A} (l : list A) :
  rule_presence l ≠ SevWarning.
Proof. by destruct l. Qed.

(** X3.  When the error threshold is not above the warning threshold the two
    classifiers never answer warning: every value that reaches the warning
    threshold has reached the error threshold too. *)
Theorem no_warning_when_thresholds_inverted (w e : Z) :
  (e <= w)%Z ->
  (forall cpu mem disks failed,
      Linux.calculate_severity cpu mem disks failed w e ≠ "warning")
  /\ (forall cpu mx mem st errors heavy,
      Checkpoint.calculate_severity cpu mx mem st errors heavy w e
      ≠ "warning").
Proof.
  intros Hle. split.
  - intros cpu mem disks failed.
    rewrite linux_severity_max. intros H.
    apply (severity_name_inj _ SevWarning), max_of_warning in H.
    unfold Linux.rules in H.
    rewrite !Exists_app, !Exists_cons, !Exists_nil in H.
    destruct H as [[H|[H|[]]]|[H|[H|[]]]].
    + by apply rule_threshold_no_warning in H.
    + by apply rule_threshold_no_warning in H.
    + induction disks as [|d disks IH]; simpl in H.
      * by apply Exists_nil in H.
      * apply Exists_cons in H as [H|H]; [|by apply IH].
        by apply rule_threshold_no_warning in H.
    + by apply rule_presence_no_warning in H.
  - intros cpu mx mem st errors heavy.
    rewrite checkpoint_severity_max. intros H.
    apply (severity_name_inj _ SevWarning), max_of_warning in H.
    unfold Checkpoint.rules in H.
    rewrite !Exists_cons, !Exists_nil in H.
    destruct H as [H|[H|[H|[H|[H|[]]]]]].
    + by apply rule_cpu_no_warning in H.
    + by apply rule_threshold_no_warning in H.
    + unfold Checkpoint.rule_cluster_role in H. by case_bool_decide.
    + by apply rule_presence_no_warning in H.
    + by apply rule_presence_no_warning in H.
Qed.

Lemma no_warning_when_thresholds_inverted_witness :
  Linux.calculate_severity (Finite 92) (Finite 10) [] [] 95 90 ≠ "warning".
Proof.
  apply (proj1 (no_warning_when_thresholds_inverted 95 90 ltac:(lia))).
Defined.

(** ** The order of the lists *)

(** X4.  The verdict does not depend on the order in which the disks and the
    services (host agent) or the device errors and heavy connections
    (appliance agent) are listed. *)
Theorem severity_order_independent :
  (forall cpu mem disks disks' failed failed' w e,
      disks ≡ₚ disks' -> failed ≡ₚ failed' ->
      Linux.calculate_severity cpu mem disks failed w e
      = Linux.calculate_severity cpu mem disks' failed' w e)
  /\ (forall cpu mx mem st errors errors' heavy heavy' w e,
      errors ≡ₚ errors' -> heavy ≡ₚ heavy' ->
      Checkpoint.calculate_severity cpu mx mem st errors heavy w e
      = Checkpoint.calculate_severity cpu mx mem st errors' heavy' w e).
Proof.
  assert (Hpres : forall (l l' : list string),
             l ≡ₚ l' -> rule_presence l = rule_presence l').
  { intros l l' Hp. destruct l, l'; try done.
    - by apply Permutation_nil_cons in Hp.
    - symmetry in Hp. by apply Permutation_nil_cons in Hp. }
  split.
  - intros cpu mem disks disks' failed failed' w e Hd Hf.
    rewrite !linux_severity_max. f_equal. apply max_of_Permutation.
    unfold Linux.rules. rewrite (Hpres _ _ Hf).
    do 2 apply perm_skip.
    apply Permutation_app; [|done]. by apply Permutation_map.
  - intros cpu mx mem st errors errors' heavy heavy' w e He Hh.
    rewrite !checkpoint_severity_max. unfold Checkpoint.rules.
    by rewrite (Hpres _ _ He), (Hpres _ _ Hh).
Qed.

Lemma severity_order_independent_witness :
  let root := {| Linux.device := "/dev/sda1"; Linux.mount_point := "/";
                 Linux.used_percent := Finite 97 |} in
  let home := {| Linux.device := "/dev/sda2"; Linux.mount_point := "/home";
                 Linux.used_percent := Finite 86 |} in
  Linux.calculate_severity (Finite 1) (Finite 2) [root; home] [] 85 95
  = Linux.calculate_severity (Finite 1) (Finite 2) [home; root] [] 85 95.
Proof.
  intros root home.
  apply (proj1 severity_order_independent); [apply perm_swap|done].
Defined.

(** ** Readings that are not numbers *)

(** X5.  A reading that is NaN is below every threshold: it never raises the
    verdict, a disk whose used percentage is NaN can be left out, and when
    all readings are NaN the verdict is ok if nothing is listed. *)
Theorem nan_readings_are_ignored :
  (forall cpu mem disks failed w e,
      severity_leb (Linux.calculate_severity NaN mem disks failed w e)
                   (Linux.calculate_severity cpu mem disks failed w e) = true
      /\ severity_leb (Linux.calculate_severity cpu NaN disks failed w e)
                      (Linux.calculate_severity cpu mem disks failed w e)
         = true)
  /\ (forall cpu mem d1 dev mnt d2 failed w e,
      Linux.calculate_severity cpu mem
        (d1 ++ {| Linux.device := dev; Linux.mount_point := mnt;
                  Linux.used_percent := NaN |} :: d2) failed w e
      = Linux.calculate_severity cpu mem (d1 ++ d2) failed w e)
  /\ (forall w e,
      Linux.calculate_severity NaN NaN [] [] w e = "ok"
      /\ Checkpoint.calculate_severity NaN NaN NaN "Active" [] [] w e = "ok").
Proof.
  split; [|split].
  - intros cpu mem disks failed w e.
    rewrite !linux_severity_max, !severity_leb_name. unfold Linux.rules.
    rewrite !max_of_app, !max_of_cons.
    change (rule_threshold NaN w e) with SevOk.
    split; sev_mono.
    + by destruct (rule_threshold cpu w e).
    + by destruct (rule_threshold mem w e).
  - intros cpu mem d1 dev mnt d2 failed w e.
    rewrite !linux_severity_max. unfold Linux.rules.
    rewrite !map_app, map_cons. simpl Linux.used_percent.
    rewrite !max_of_app, !max_of_cons.
    change (rule_threshold NaN w e) with SevOk.
    by rewrite sev_max_ok_l.
  - intros w e. by split.
Qed.

(** ** Failed services: the ignore list *)

Lemma get_failed_services_filter stdout ignore_list :
  Linux.get_failed_services (Some stdout) ignore_list
  = List.filter
      (fun u => negb (Linux.should_ignore
                        (default Linux.DEFAULT_IGNORE_SERVICES ignore_list) u))
      (Linux.reported_units stdout).
Proof.
  unfold Linux.get_failed_services, Linux.reported_units. cbv zeta.
  by rewrite failed_services_loop.
Qed.

Lemma should_ignore_app l1 l2 u :
  Linux.should_ignore (l1 ++ l2) u
  = Linux.should_ignore l1 u || Linux.should_ignore l2 u.
Proof.
  induction l1 as [|p l1 IH]; simpl; [done|].
  destruct (PyStr.endswith_char p "*").
  - by destruct (PyStr.startswith u (PyStr.drop_last p)).
  - by destruct (bool_decide (p = u)).
Qed.

Lemma filter_filter_and {A} (f g : A -> bool) l :
  List.filter g (List.filter f l) = List.filter (fun x => f x && g x) l.
Proof.
  induction l as [|x l IH]; simpl; [done|].
  destruct (f x); simpl; [|done]. destruct (g x); by rewrite IH.
Qed.

(** X6.  Ignoring the patterns of two lists at once is ignoring those of the
    first and then, in what is left, those of the second; the order of the
    patterns in the list makes no difference. *)
Theorem failed_services_two_ignore_lists stdout (l1 l2 : list string) :
  Linux.get_failed_services (Some stdout) (Some (l1 ++ l2))
  = List.filter (fun u => negb (Linux.should_ignore l2 u))
      (Linux.get_failed_services (Some stdout) (Some l1))
  /\ Linux.get_failed_services (Some stdout) (Some (l1 ++ l2))
     = Linux.get_failed_services (Some stdout) (Some (l2 ++ l1)).
Proof.
  rewrite !get_failed_services_filter. simpl default.
  rewrite filter_filter_and. split.
  - apply List.filter_ext. intros u.
    by rewrite should_ignore_app, negb_orb.
  - apply List.filter_ext. intros u.
    by rewrite !should_ignore_app, orb_comm.
Qed.

Lemma should_ignore_star ignore_list u :
  "*" ∈ ignore_list -> Linux.should_ignore ignore_list u = true.
Proof.
  intros Hin. apply should_ignore_spec. exists "*". split; [done|].
  left. exists "". split; [done|]. by exists u.
Qed.

Lemma filter_all_false {A} (f : A -> bool) l :
  (forall x, f x = false) -> List.filter f l = [].
Proof.
  intros H. induction l as [|x l IH]; simpl; [done|]. by rewrite H.
Qed.

Lemma filter_all_true {A} (f : A -> bool) l :
  (forall x, f x = true) -> List.filter f l = l.
Proof.
  intros H. induction l as [|x l IH]; simpl; [done|]. by rewrite H, IH.
Qed.

(** X7.  The ends of the range of [get_failed_services]: nothing is reported
    when the service manager could not be run or when the pattern [*] is in
    the ignore list, and every reported unit is kept, repetitions included,
    when the ignore list is empty. *)
Theorem failed_services_edges :
  (forall ignore_list, Linux.get_failed_services None ignore_list = [])
  /\ (forall stdout ignore_list,
      "*" ∈ ignore_list ->
      Linux.get_failed_services (Some stdout) (Some ignore_list) = [])
  /\ (forall stdout,
      Linux.get_failed_services (Some stdout) (Some [])
      = Linux.reported_units stdout).
Proof.
  split; [done|]. split.
  - intros stdout ignore_list Hin. rewrite get_failed_services_filter.
    apply filter_all_false. intros u. simpl default.
    by rewrite should_ignore_star.
  - intros stdout. rewrite get_failed_services_filter.
    by apply filter_all_true.
Qed.

Lemma failed_services_edges_witness :
  Linux.get_failed_services
    (Some "cron.service loaded failed failed Regular background jobs")
    (Some ["apt-daily.timer"; "*"]) = [].
Proof.
  apply (proj1 (proj2 failed_services_edges)). repeat constructor.
Defined.

(** ** Workload status, both ways *)

(** X18.  The status of a workload says exactly how the two counts stand, and the
    severity exactly which status it is: error for Down, ok for Running,
    warning for Degraded and ScaledDown. *)
Theorem calculate_status_both_ways kind spec status :
  let r := Ocp.calculate_status kind spec status in
  let desired := Ocp.desired_of r in
  let current := Ocp.current_of r in
  (Ocp.status_str_of r = "Running" <-> (0 < desired <= current)%Z)
  /\ (Ocp.status_str_of r = "Down" <-> (0 < desired)%Z /\ current = 0%Z)
  /\ (Ocp.status_str_of r = "Degraded" <->
      (0 < desired)%Z /\ (current < desired)%Z /\ current ≠ 0%Z)
  /\ (Ocp.status_str_of r = "ScaledDown" <-> (desired <= 0)%Z)
  /\ (Ocp.severity_of r = "error" <-> Ocp.status_str_of r = "Down")
  /\ (Ocp.severity_of r = "ok" <-> Ocp.status_str_of r = "Running")
  /\ (Ocp.severity_of r = "warning" <->
      Ocp.status_str_of r = "Degraded" \/ Ocp.status_str_of r = "ScaledDown").
Proof.
  intros r desired current.
  pose proof (calculate_status_cases kind spec status) as H.
  cbv zeta in H. fold r in H. fold desired in H. fold current in H.
  destruct H as [H|[H|[H|H]]]; destruct_and?;
    repeat match goal with
           | H : Ocp.status_str_of r = _ |- _ => rewrite H; clear H
           | H : Ocp.severity_of r = _ |- _ => rewrite H; clear H
           end;
    repeat split; intros; destruct_and?; destruct_or?;
    first [done | lia | congruence | by left | by right].
Qed.

Lemma calculate_status_both_ways_witness :
  (0 < Ocp.desired_of
         (Ocp.calculate_status "daemonsets" ∅
            {["desiredNumberScheduled" := 4%Z; "numberReady" := 0%Z]}))%Z
  /\ Ocp.current_of
       (Ocp.calculate_status "daemonsets" ∅
          {["desiredNumberScheduled" := 4%Z; "numberReady" := 0%Z]}) = 0%Z.
Proof.
  apply (proj1 (proj1 (proj2 (calculate_status_both_ways "daemonsets" ∅
    {["desiredNumberScheduled" := 4%Z; "numberReady" := 0%Z]})))).
  reflexivity.
Defined.

(** A kind that is none of the three the agent knows has both counts 0 and
    is reported as scaled down, whatever its [spec] and [status] hold. *)
Lemma calculate_status_unknown_kind kind spec status :
  kind ∉ ["deployments"; "statefulsets"; "daemonsets"] ->
  Ocp.calculate_status kind spec status
  = ("ScaledDown", "warning", 0%Z, 0%Z).
Proof.
  intros Hk. unfold Ocp.calculate_status.
  rewrite !bool_decide_eq_false_2; [done|..];
    intros ->; apply Hk; set_solver.
Qed.

Lemma calculate_status_unknown_kind_witness :
  Ocp.calculate_status "replicasets" {["replicas" := 3%Z]}
    {["availableReplicas" := 3%Z]}
  = ("ScaledDown", "warning", 0%Z, 0%Z).
Proof.
  apply calculate_status_unknown_kind.
  intros H. repeat (apply elem_of_cons in H as [H|H]; [discriminate|]).
  by apply elem_of_nil in H.
Defined.

(** ** The posting loop in general *)

Lemma post_one_accepted resource outcome :
  Ocp.accepted outcome = true -> Ocp.post_one resource outcome = inl [].
Proof.
  destruct outcome as [code text|msg]; [|done]. simpl.
  intros H%negb_true_iff. unfold Ocp.post_one, Ocp.try_block. by rewrite H.
Qed.

Lemma post_one_refused kind item outcome :
  Ocp.accepted outcome = false ->
  Ocp.post_one (Ocp.resource_entry kind item) outcome
  = inr (Ocp.KeyError "name").
Proof.
  intros H. apply post_one_failure.
  destruct outcome as [code text|msg]; [|done].
  simpl in H. by apply negb_false_iff in H.
Qed.

Lemma post_loop_accepted_run project_name resource_list outcomes st :
  (forall i, (i < length resource_list)%nat ->
             Ocp.accepted (outcomes (length (Ocp.posted st) + i)%nat) = true) ->
  Ocp.post_loop project_name resource_list outcomes st
  = ({| Ocp.posted :=
          Ocp.posted st ++ map (Ocp.request_body project_name) resource_list;
        Ocp.printed := Ocp.printed st |},
     None).
Proof.
  revert st. induction resource_list as [|resource rest IH]; intros st Hok.
  - simpl. rewrite app_nil_r. by destruct st.
  - simpl. rewrite post_one_accepted.
    + rewrite IH.
      * simpl. by rewrite app_nil_r, <-app_assoc.
      * intros i Hi. simpl. rewrite length_app. simpl.
        replace (length (Ocp.posted st) + 1 + i)%nat
          with (length (Ocp.posted st) + S i)%nat by lia.
        apply Hok. simpl. lia.
    + specialize (Hok 0%nat). rewrite Nat.add_0_r in Hok.
      apply Hok. simpl. lia.
Qed.

(** X19.  The run of the loop up to the first request that does not go through:
    the requests before it are made and nothing is printed for them, the
    refused one is made too, and there the loop is left with the
    [KeyError]; no later resource is posted. *)
Theorem post_loop_first_refusal
    project_name kind (items : list Ocp.Item) outcomes st (k : nat) :
  (k < length items)%nat ->
  (forall i, (i < k)%nat ->
             Ocp.accepted (outcomes (length (Ocp.posted st) + i)%nat) = true) ->
  Ocp.accepted (outcomes (length (Ocp.posted st) + k)%nat) = false ->
  Ocp.post_loop project_name (map (Ocp.resource_entry kind) items) outcomes st
  = ({| Ocp.posted :=
          Ocp.posted st
          ++ map (fun item =>
                    Ocp.request_body project_name (Ocp.resource_entry kind item))
                 (take (S k) items);
        Ocp.printed := Ocp.printed st |},
     Some (Ocp.KeyError "name")).
Proof.
  revert st k. induction items as [|item items IH]; intros st k Hk Hok Hbad.
  - simpl in Hk. lia.
  - destruct k as [|k].
    + rewrite Nat.add_0_r in Hbad. simpl.
      by rewrite post_one_refused.
    + simpl. rewrite post_one_accepted.
      * rewrite (IH _ k).
        -- simpl. by rewrite app_nil_r, <-app_assoc.
        -- simpl in Hk. lia.
        -- intros i Hi. simpl. rewrite length_app. simpl.
           replace (length (Ocp.posted st) + 1 + i)%nat
             with (length (Ocp.posted st) + S i)%nat by lia.
           apply Hok. lia.
        -- simpl. rewrite length_app. simpl.
           by replace (length (Ocp.posted st) + 1 + k)%nat
             with (length (Ocp.posted st) + S k)%nat by lia.
      * specialize (Hok 0%nat). rewrite Nat.add_0_r in Hok.
        apply Hok. lia.
Qed.

Lemma post_loop_first_refusal_witness :
  let item := fun n : string =>
    {| Ocp.name := Some n; Ocp.namespace := Some "infra";
       Ocp.creationTimestamp := None;
       Ocp.spec_obj := ∅;
       Ocp.status_obj :=
         {["desiredNumberScheduled" := 3%Z; "numberReady" := 3%Z]} |} in
  let items := [item "dns"; item "ovn"; item "tuned"] in
  Ocp.post_loop "Daemonsets" (map (Ocp.resource_entry "daemonsets") items)
    (fun n => match n with
              | 1%nat => Ocp.Response 404 "Not Found"
              | _ => Ocp.Response 201 "Created"
              end)
    {| Ocp.posted := []; Ocp.printed := [] |}
  = ({| Ocp.posted :=
          [] ++ map (fun item =>
                       Ocp.request_body "Daemonsets"
                         (Ocp.resource_entry "daemonsets" item))
                    (take 2 items);
        Ocp.printed := [] |},
     Some (Ocp.KeyError "name")).
Proof.
  intros item items.
  apply (post_loop_first_refusal "Daemonsets" "daemonsets" items _
           {| Ocp.posted := []; Ocp.printed := [] |} 1).
  - simpl. lia.
  - intros i Hi. assert (i = 0%nat) as -> by lia. reflexivity.
  - reflexivity.
Defined.

Lemma push_kinds_accepted run_oc outcomes resources st :
  (forall n, Ocp.accepted (outcomes n) = true) ->
  exists lines,
    Ocp.push_kinds run_oc outcomes resources st
    = ({| Ocp.posted :=
            Ocp.posted st
            ++ concat (map (Ocp.bodies_of_kind run_oc) resources);
          Ocp.printed := Ocp.printed st ++ lines |},
       None).
Proof.
  intros Hok. revert st.
  induction resources as [|[project_name k8s_kind] rest IH]; intros st.
  - exists []. simpl. rewrite !app_nil_r. by destruct st.
  - simpl. unfold Ocp.push_kind, Ocp.bodies_of_kind. cbv zeta. simpl.
    destruct (run_oc _) as [items|].
    + rewrite post_loop_accepted_run by (intros; apply Hok).
      destruct (IH (Ocp.print
        {| Ocp.posted :=
             Ocp.posted
               (Ocp.print
                  (Ocp.print st ("Collecting " +:+ k8s_kind +:+ "..."))
                  ("Found "
                   +:+ pretty (length (map (Ocp.resource_entry k8s_kind) items))
                   +:+ " resources for " +:+ project_name))
             ++ map (Ocp.request_body project_name)
                    (map (Ocp.resource_entry k8s_kind) items);
           Ocp.printed :=
             Ocp.printed
               (Ocp.print
                  (Ocp.print st ("Collecting " +:+ k8s_kind +:+ "..."))
                  ("Found "
                   +:+ pretty (length (map (Ocp.resource_entry k8s_kind) items))
                   +:+ " resources for " +:+ project_name)) |}
        ("Finished posting " +:+ project_name))) as [lines ->].
      eexists. simpl. rewrite map_map, <-!app_assoc. reflexivity.
    + destruct (IH (Ocp.print
        (Ocp.print st ("Collecting " +:+ k8s_kind +:+ "..."))
        ("No data found for " +:+ k8s_kind))) as [lines ->].
      eexists. simpl. rewrite <-!app_assoc. reflexivity.
Qed.

(** X20.  When every request goes through, [collect_and_push] ends normally and
    has posted, in the order of [RESOURCES] and then of the items, one body
    per item of each kind for which [oc] gave data; a kind without data is
    passed over and the kinds after it are still posted. *)
Theorem collect_and_push_all_accepted run_oc outcomes :
  (forall n, Ocp.accepted (outcomes n) = true) ->
  let '(st, e) := Ocp.collect_and_push run_oc outcomes in
  e = None
  /\ Ocp.posted st
     = Ocp.bodies_of_kind run_oc ("Deployments", "deployments")
       ++ Ocp.bodies_of_kind run_oc ("Statefulsets", "statefulsets")
       ++ Ocp.bodies_of_kind run_oc ("Daemonsets", "daemonsets").
Proof.
  intros Hok. unfold Ocp.collect_and_push.
  destruct (push_kinds_accepted run_oc outcomes Ocp.RESOURCES
              {| Ocp.posted := []; Ocp.printed := [] |} Hok) as [lines ->].
  split; [done|]. simpl. by rewrite app_nil_r.
Qed.

Lemma collect_and_push_all_accepted_witness :
  let item :=
    {| Ocp.name := Some "router"; Ocp.namespace := Some "ingress";
       Ocp.creationTimestamp := Some "2025-01-01T00:00:00Z";
       Ocp.spec_obj := {["replicas" := 2%Z]};
       Ocp.status_obj := {["readyReplicas" := 2%Z]} |} in
  let run_oc := fun cmd : string =>
    if bool_decide (cmd = "oc get statefulsets --all-namespaces -o json")
    then None else Some [item] in
  let '(st, e) :=
    Ocp.collect_and_push run_oc (fun _ => Ocp.Response 204 "") in
  e = None
  /\ Ocp.posted st
     = Ocp.bodies_of_kind run_oc ("Deployments", "deployments")
       ++ Ocp.bodies_of_kind run_oc ("Statefulsets", "statefulsets")
       ++ Ocp.bodies_of_kind run_oc ("Daemonsets", "daemonsets").
Proof.
  intros item run_oc.
  apply (collect_and_push_all_accepted run_oc (fun _ => Ocp.Response 204 "")).
  reflexivity.
Defined.

(** ** The payload says what the verdict says *)

(** X12.  In the payload of the host agent the [Services] text is the all-running
    one exactly when no service is reported; a verdict other than error
    always comes with that text, and the verdict ok with every disk below
    the warning threshold. *)
Theorem linux_payload_agrees
    float_str hostname cpu mem disks services w e pn sn :
  let body :=
    Linux.main float_str hostname cpu mem disks services w e pn sn in
  (payload_field body "Services"
   = Some (VStr "All Enabled Services Running") <-> services = [])
  /\ (payload_field body "Severity" ≠ Some (VStr "error") ->
      payload_field body "Services"
      = Some (VStr "All Enabled Services Running"))
  /\ (payload_field body "Severity" = Some (VStr "ok") ->
      Forall (fun d => ge_int (Linux.used_percent d) w = false) disks)
  /\ payload_field body "Id" = payload_field body "Name".
Proof.
  intros body.
  assert (Hsev : payload_field body "Severity"
                 = Some (VStr (Linux.calculate_severity cpu mem disks services
                                 w e))) by done.
  assert (Hserv : payload_field body "Services"
                  = Some (VStr (Linux.format_services_string services))) by done.
  rewrite Hsev, Hserv.
  pose proof (linux_verdict cpu mem disks services w e) as (He & Ho & _).
  split; [|split; [|split]].
  - destruct services as [|x l]; [done|]. split; [|done].
    unfold Linux.format_services_string. simpl PyStr.nonempty. cbv iota.
    intros [=].
  - intros Hne. destruct services as [|x l]; [done|].
    by destruct Hne.
  - intros [= H]. apply Ho in H as (_ & _ & H & _).
    eapply Forall_impl; [exact H|]. by intros d [? _].
  - done.
Qed.

Lemma linux_payload_agrees_witness :
  payload_field
    (Linux.main (fun _ => "12.5") "web01" (Finite 12) (Finite 88) [] []
       85 95 "Servers" "Monitoring") "Services"
  = Some (VStr "All Enabled Services Running").
Proof.
  apply (proj1 (proj2 (linux_payload_agrees (fun _ => "12.5") "web01"
    (Finite 12) (Finite 88) [] [] 85 95 "Servers" "Monitoring"))).
  vm_compute. discriminate.
Defined.

(** X17.  In the payload of the appliance agent a verdict other than error comes
    with the texts [No Errors] and [None] and with a cluster state that is
    not a bad one; listed heavy connections are counted in the payload and
    make the verdict error; the cluster state is passed on as it was
    found. *)
Theorem checkpoint_payload_agrees
    float_str hostname mem_str cpu mx heavy_cpus mem total free st errors
    heavy w e pn sn :
  let body :=
    Checkpoint.main float_str hostname mem_str cpu mx heavy_cpus mem total
      free st errors heavy w e pn sn in
  (payload_field body "Severity" ≠ Some (VStr "error") ->
   payload_field body "Errors" = Some (VStr "No Errors")
   /\ payload_field body "Heavy Connections" = Some (VStr "None")
   /\ PyStr.lower st ∉ ["down"; "problem"; "error"; "unknown"])
  /\ (heavy ≠ [] ->
      payload_field body "Heavy Connections"
      = Some (VStr (pretty (length heavy) +:+ " found"))
      /\ payload_field body "Severity" = Some (VStr "error"))
  /\ payload_field body "Cluster State" = Some (VStr st)
  /\ payload_field body "Id" = payload_field body "Name".
Proof.
  intros body.
  assert (Hsev : payload_field body "Severity"
    = Some (VStr (Checkpoint.calculate_severity cpu mx mem st errors heavy
                    w e))) by done.
  pose proof (checkpoint_verdict cpu mx mem st errors heavy w e)
    as (He & _ & _). cbv zeta in He.
  rewrite Hsev. split; [|split; [|split]].
  - intros Hne.
    assert (Hno : ~ (ge_int cpu e = true \/ ge_int mx e = true
                     \/ ge_int mem e = true
                     \/ PyStr.lower st ∈ ["down"; "problem"; "error"; "unknown"]
                     \/ errors ≠ [] \/ heavy ≠ [])).
    { intros H. apply He in H. by rewrite H in Hne. }
    destruct errors as [|x errors]; [|destruct Hno; by do 4 right; left].
    destruct heavy as [|y heavy]; [|destruct Hno; by do 5 right].
    split; [done|]. split; [done|]. intros H. apply Hno. by do 3 right; left.
  - intros Hh. split.
    + by destruct heavy.
    + do 2 f_equal. apply He. by do 5 right.
  - done.
  - done.
Qed.

Lemma checkpoint_payload_agrees_witness :
  let body :=
    Checkpoint.main (fun _ => "3.0") "fw1" (fun _ _ => "Free: 2.499GB")
      (Finite 3) (Finite 6) [] (Finite 55) 5977120768 2683285504 "Active"
      [] ["conn A"; "conn B"] 85 95 "Firewalls" "Checkpoint" in
  payload_field body "Heavy Connections" = Some (VStr ("2" +:+ " found"))
  /\ payload_field body "Severity" = Some (VStr "error").
Proof.
  intros body.
  apply (proj1 (proj2 (checkpoint_payload_agrees (fun _ => "3.0") "fw1"
    (fun _ _ => "Free: 2.499GB") (Finite 3) (Finite 6) [] (Finite 55)
    5977120768 2683285504 "Active" [] ["conn A"; "conn B"] 85 95
    "Firewalls" "Checkpoint"))).
  discriminate.
Defined.

(** ** Heavy connections of the appliance agent *)

Lemma contains_spec s sub :
  PyStr.contains s sub = true <-> PyStr.occurs sub s.
Proof.
  split.
  - induction s as [|c s IH]; simpl.
    + destruct (PyStr.after_prefix sub "") as [rest|] eqn:E; [|done].
      intros _. apply after_prefix_spec in E. by exists "", rest.
    + destruct (PyStr.after_prefix sub (String c s)) as [rest|] eqn:E.
      * intros _. apply after_prefix_spec in E. by exists "", rest.
      * intros (pre & post & ->)%IH. by exists (String c pre), post.
  - intros (pre & post & ->). induction pre as [|c pre IH].
    + change ("" +:+ sub +:+ post) with (sub +:+ post).
      assert (PyStr.after_prefix sub (sub +:+ post) = Some post) as E
        by by apply after_prefix_spec.
      destruct (sub +:+ post); simpl; by rewrite E.
    + rewrite string_app_cons. simpl. rewrite IH. by destruct (PyStr.after_prefix _ _).
Qed.

Lemma heavy_connections_loop today lines acc :
  fold_left
    (fun heavy_conns line =>
       if PyStr.contains line today then heavy_conns ++ [PyStr.strip line]
       else heavy_conns)
    lines acc
  = acc ++ map PyStr.strip
             (List.filter (fun line => PyStr.contains line today) lines).
Proof.
  revert acc. induction lines as [|line lines IH]; intros acc; simpl.
  - by rewrite app_nil_r.
  - rewrite IH. destruct (PyStr.contains line today); simpl; [|done].
    by rewrite <-app_assoc.
Qed.

Lemma filter_length_le {A} (f : A -> bool) l :
  (length (List.filter f l) <= length l)%nat.
Proof.
  induction l as [|x l IH]; simpl; [lia|]. destruct (f x); simpl; lia.
Qed.

(** X15.  At most five heavy connections are reported: they are the lines among
    the last five of the output in which the date of the day occurs, each
    stripped of surrounding white space and in the order of the output;
    whatever stands before the last five lines is not looked at, and an
    empty output gives the empty list. *)
Theorem heavy_connections_last_five (today output : string) :
  let result := Checkpoint.get_heavy_connections today output in
  let lines := PyStr.split_char PyStr.nl (PyStr.strip output) in
  (length result <= 5)%nat
  /\ (forall x, x ∈ result ->
        exists line, line ∈ lines /\ PyStr.occurs today line
                     /\ x = PyStr.strip line)
  /\ (output = "" -> result = [])
  /\ (forall older last,
        output ≠ "" -> lines = older ++ last -> length last = 5%nat ->
        result
        = map PyStr.strip
            (List.filter (fun line => PyStr.contains line today) last)).
Proof.
  intros result lines.
  assert (Hres : output ≠ "" ->
    result = map PyStr.strip
      (List.filter (fun line => PyStr.contains line today)
         (drop (length lines - 5) lines))).
  { intros Hne. unfold result, Checkpoint.get_heavy_connections.
    destruct output as [|c output]; [done|]. cbv zeta.
    cbn [PyStr.nonempty_str negb]. by rewrite heavy_connections_loop. }
  destruct (decide (output = "")) as [->|Hne].
  { split; [simpl; lia|]. split; [|done].
    intros x Hx. by apply elem_of_nil in Hx. }
  specialize (Hres Hne).
  split; [|split; [|split]].
  - rewrite Hres, length_map.
    etransitivity; [apply filter_length_le|].
    rewrite length_drop. lia.
  - intros x. rewrite Hres, list_elem_of_In, in_map_iff.
    intros (line & <- & [Hin Hc]%List.filter_In).
    exists line. split; [|split; [by apply contains_spec|done]].
    apply list_elem_of_In in Hin. by eapply subseteq_drop.
  - done.
  - intros older last _ Hlines Hlen. rewrite Hres, Hlines.
    rewrite length_app, Hlen.
    replace (length older + 5 - 5)%nat with (length older) by lia.
    by rewrite drop_app_length.
Qed.

Lemma heavy_connections_last_five_witness :
  Checkpoint.get_heavy_connections "17/12/25"
    ("old 17/12/25" +:+ String PyStr.nl "a" +:+ String PyStr.nl "b 17/12/25 "
     +:+ String PyStr.nl "c" +:+ String PyStr.nl "d" +:+ String PyStr.nl "e")
  = map PyStr.strip
      (List.filter (fun line => PyStr.contains line "17/12/25")
         ["a"; "b 17/12/25 "; "c"; "d"; "e"]).
Proof.
  apply (proj2 (proj2 (proj2 (heavy_connections_last_five "17/12/25" _)))
           ["old 17/12/25"]).
  - discriminate.
  - reflexivity.
  - reflexivity.
Defined.

(** ** Disks of the host agent *)

Lemma disk_loop_sound (parse_float : string -> option pyfloat)
    (Q : Linux.DiskEntry -> Prop) (lines all : list string) acc :
  lines ⊆ all ->
  Forall Q acc ->
  (forall line filesystem fs_type mount_point percent used_percent,
      line ∈ all ->
      (7 <= length (PyStr.split_ws line))%nat ->
      PyStr.split_ws line !! 0%nat = Some filesystem ->
      PyStr.split_ws line !! 1%nat = Some fs_type ->
      PyStr.split_ws line !! 6%nat = Some mount_point ->
      PyStr.split_ws line !! 5%nat = Some percent ->
      fs_type ∉ Linux.exclude_types ->
      existsb (PyStr.startswith mount_point) Linux.exclude_mounts = false ->
      PyStr.startswith filesystem "/" = true ->
      parse_float (PyStr.rstrip_char "%" percent) = Some used_percent ->
      Q {| Linux.device := filesystem; Linux.mount_point := mount_point;
           Linux.used_percent := used_percent |}) ->
  Forall Q
    (fold_left
       (fun disks line =>
          let parts := PyStr.split_ws line in
          if (7 <=? length parts)%nat then
            match parts !! 0%nat, parts !! 1%nat, parts !! 6%nat,
                  parts !! 5%nat with
            | Some filesystem, Some fs_type, Some mount_point, Some percent =>
                let used_percent_str := PyStr.rstrip_char "%" percent in
                if bool_decide (fs_type ∈ Linux.exclude_types) then disks
                else if existsb (PyStr.startswith mount_point)
                          Linux.exclude_mounts
                then disks
                else if negb (PyStr.startswith filesystem "/") then disks
                else
                  match parse_float used_percent_str with
                  | Some used_percent =>
                      disks ++ [{| Linux.device := filesystem;
                                   Linux.mount_point := mount_point;
                                   Linux.used_percent := used_percent |}]
                  | None => disks
                  end
            | _, _, _, _ => disks
            end
          else disks)
       lines acc).
Proof.
  intros Hsub Hacc HQ. revert acc Hacc.
  induction lines as [|line lines IH]; intros acc Hacc; [done|].
  cbn [fold_left]. apply IH; [set_solver|]. cbv beta zeta.
  destruct (Nat.leb_spec 7 (length (PyStr.split_ws line))) as [Hlen|]; [|done].
  destruct (PyStr.split_ws line !! 0%nat) as [filesystem|] eqn:E0; [|done].
  destruct (PyStr.split_ws line !! 1%nat) as [fs_type|] eqn:E1; [|done].
  destruct (PyStr.split_ws line !! 6%nat) as [mount_point|] eqn:E6; [|done].
  destruct (PyStr.split_ws line !! 5%nat) as [percent|] eqn:E5; [|done].
  case_bool_decide as Ht; [done|].
  destruct (existsb _ _) eqn:Hm; [done|].
  destruct (PyStr.startswith filesystem "/") eqn:Hf; [|done]. simpl.
  destruct (parse_float _) as [used_percent|] eqn:Hp; [|done].
  apply Forall_app. split; [done|]. constructor; [|done].
  eapply HQ; eauto. set_solver.
Qed.


(** X9.  What [get_disk_usage] never reports: a row whose device does not start
    with a slash, whose mount point starts with [/boot/efi] or [/snap],
    whose file-system type is one of the virtual ones, whose percentage
    [float] does not read, or the first line of the table.  Every entry
    comes from a line after the first with at least seven columns, and
    there are no entries when [df] could not be run. *)
Theorem disk_usage_rows (parse_float : string -> option pyfloat) :
  Linux.get_disk_usage parse_float None = []
  /\ forall stdout d,
      d ∈ Linux.get_disk_usage parse_float (Some stdout) ->
      PyStr.startswith (Linux.device d) "/" = true
      /\ PyStr.startswith (Linux.mount_point d) "/boot/efi" = false
      /\ PyStr.startswith (Linux.mount_point d) "/snap" = false
      /\ exists line fs_type percent,
          line ∈ drop 1 (PyStr.split_char PyStr.nl (PyStr.strip stdout))
          /\ (7 <= length (PyStr.split_ws line))%nat
          /\ PyStr.split_ws line !! 0%nat = Some (Linux.device d)
          /\ PyStr.split_ws line !! 1%nat = Some fs_type
          /\ (fs_type ∉ Linux.exclude_types)
          /\ PyStr.split_ws line !! 6%nat = Some (Linux.mount_point d)
          /\ PyStr.split_ws line !! 5%nat = Some percent
          /\ parse_float (PyStr.rstrip_char "%" percent)
             = Some (Linux.used_percent d).
Proof.
  split; [done|]. intros stdout.
  unfold Linux.get_disk_usage. cbv zeta.
  apply Forall_forall.
  apply disk_loop_sound
    with (all := drop 1 (PyStr.split_char PyStr.nl (PyStr.strip stdout)));
    [done|constructor|].
  intros line filesystem fs_type mount_point percent used_percent
    Hline Hlen E0 E1 E6 E5 Ht Hm Hf Hp. simpl.
  simpl in Hm. apply orb_false_iff in Hm as [Hm1 Hm2].
  apply orb_false_iff in Hm2 as [Hm2 _].
  repeat split; try done.
  by exists line, fs_type, percent.
Qed.

Lemma disk_usage_rows_witness :
  let stdout :=
    "Filesystem Type 1024-blocks Used Available Capacity Mounted on"
    +:+ String PyStr.nl "/dev/sda1 ext4 100 42 58 42% /" in
  let d := {| Linux.device := "/dev/sda1"; Linux.mount_point := "/";
              Linux.used_percent := Finite 42 |} in
  d ∈ Linux.get_disk_usage (fun _ => Some (Finite 42)) (Some stdout)
  /\ PyStr.startswith (Linux.device d) "/" = true.
Proof.
  assert (H : {| Linux.device := "/dev/sda1"; Linux.mount_point := "/";
                 Linux.used_percent := Finite 42 |}
              ∈ Linux.get_disk_usage (fun _ => Some (Finite 42))
                  (Some ("Filesystem Type 1024-blocks Used Available Capacity Mounted on"
                         +:+ String PyStr.nl "/dev/sda1 ext4 100 42 58 42% /")))
    by (vm_compute; constructor).
  split; [exact H|].
  apply (proj2 (disk_usage_rows (fun _ => Some (Finite 42))) _ _ H).
Defined.

Example snapshots_mount_is_dropped parse_float :
  Linux.get_disk_usage parse_float
    (Some ("Filesystem Type 1024-blocks Used Available Capacity Mounted on"
           +:+ String PyStr.nl "/dev/sdb1 btrfs 100 97 3 97% /snapshots"
           +:+ String PyStr.nl "tmpfs tmpfs 100 1 99 1% /run"))
  = [].
Proof. reflexivity. Qed.

(** ** Enabled services that are not running *)

Lemma check_enabled_acc is_active patterns services acc :
  Linux.check_enabled is_active patterns services acc
  = acc ++ Linux.check_enabled is_active patterns services [].
Proof.
  revert acc. induction services as [|s services IH]; intros acc; simpl.
  - by rewrite app_nil_r.
  - destruct (Linux.should_ignore patterns s); [apply IH|].
    destruct (is_active s) as [out|]; [|by rewrite app_nil_r].
    case_bool_decide; [|apply IH].
    rewrite (IH (acc ++ [s])), (IH [s]). by rewrite <-app_assoc.
Qed.

Lemma check_enabled_subseteq is_active patterns services x :
  x ∈ Linux.check_enabled is_active patterns services [] -> x ∈ services.
Proof.
  induction services as [|s services IH]; simpl; [done|].
  destruct (Linux.should_ignore patterns s).
  { intros H. right. by apply IH. }
  destruct (is_active s) as [out|]; [|by intros ?%elem_of_nil].
  case_bool_decide as Hstate.
  - rewrite check_enabled_acc. intros [Hx|Hx]%elem_of_app.
    + apply list_elem_of_singleton in Hx as ->. by left.
    + right. by apply IH.
  - intros Hx. right. by apply IH.
Qed.

(** X10.  When every query for a unit that is not ignored is answered, the
    stopped services are, in the order in which the set of enabled units is
    gone through, the units that no pattern ignores and whose answer,
    stripped, is neither [active] nor [activating]. *)
Theorem stopped_services_when_queries_answer
    (set_order : list string -> list string)
    (is_active : string -> option string)
    (stdout : string) (ignore_list : option (list string)) :
  let patterns := default Linux.DEFAULT_IGNORE_SERVICES ignore_list in
  let enabled := set_order (Linux.added_units stdout) in
  (forall s, s ∈ enabled -> Linux.should_ignore patterns s = false ->
             is_active s ≠ None) ->
  Linux.get_stopped_automatic_services set_order is_active (Some stdout)
    ignore_list
  = List.filter
      (fun s =>
         negb (Linux.should_ignore patterns s)
         && match is_active s with
            | Some out =>
                bool_decide (PyStr.strip out ∉ ["active"; "activating"])
            | None => false
            end)
      enabled.
Proof.
  intros patterns enabled Hans.
  unfold Linux.get_stopped_automatic_services. cbv zeta.
  fold patterns. fold enabled. clearbody enabled patterns.
  induction enabled as [|s enabled IH]; simpl; [done|].
  destruct (Linux.should_ignore patterns s) eqn:Hign; simpl.
  - apply IH. intros x Hx. apply Hans. by right.
  - destruct (is_active s) as [out|] eqn:Hact.
    + case_bool_decide.
      * rewrite check_enabled_acc, IH; [done|].
        intros x Hx. apply Hans. by right.
      * apply IH. intros x Hx. apply Hans. by right.
    + destruct (Hans s); [by left|done..].
Qed.

Lemma stopped_services_when_queries_answer_witness :
  Linux.get_stopped_automatic_services (fun l => l)
    (fun s => if bool_decide (s = "nginx.service")
              then Some "inactive" else Some "active")
    (Some ("cron.service enabled" +:+ String PyStr.nl "nginx.service enabled"))
    None
  = List.filter
      (fun s =>
         negb (Linux.should_ignore Linux.DEFAULT_IGNORE_SERVICES s)
         && match (if bool_decide (s = "nginx.service")
                   then Some "inactive" else Some "active") with
            | Some out =>
                bool_decide (PyStr.strip out ∉ ["active"; "activating"])
            | None => false
            end)
      ((fun l => l)
         (Linux.added_units
            ("cron.service enabled" +:+ String PyStr.nl "nginx.service enabled"))).
Proof.
  apply (stopped_services_when_queries_answer (fun l => l)
    (fun s => if bool_decide (s = "nginx.service")
              then Some "inactive" else Some "active")).
  intros s _ _. by case_bool_decide.
Defined.

(** X11.  A query that raises ends the scan: the units that come after it in the
    order of the set are not examined, and what is returned is what was
    found before it. *)
Theorem stopped_services_scan_ends_at_exception
    (set_order : list string -> list string)
    (is_active : string -> option string)
    (stdout : string) (ignore_list : option (list string))
    (before after : list string) (s : string) :
  let patterns := default Linux.DEFAULT_IGNORE_SERVICES ignore_list in
  set_order (Linux.added_units stdout) = before ++ s :: after ->
  Linux.should_ignore patterns s = false ->
  is_active s = None ->
  (forall x, x ∈ before -> Linux.should_ignore patterns x = false ->
             is_active x ≠ None) ->
  let result :=
    Linux.get_stopped_automatic_services set_order is_active (Some stdout)
      ignore_list in
  result = Linux.check_enabled is_active patterns before []
  /\ (forall x, x ∈ result -> x ∈ before).
Proof.
  intros patterns Henabled Hign Hact Hbefore result.
  assert (Hres : result = Linux.check_enabled is_active patterns before []).
  { unfold result, Linux.get_stopped_automatic_services. cbv zeta.
    fold patterns. rewrite Henabled. clear Henabled result.
    generalize (@nil string) as acc.
    induction before as [|x before IH]; intros acc; simpl.
    - by rewrite Hign, Hact.
    - destruct (Linux.should_ignore patterns x) eqn:Hx.
      + apply IH. intros y Hy. apply Hbefore. by right.
      + destruct (is_active x) as [out|] eqn:Hax.
        * case_bool_decide; apply IH; intros y Hy; apply Hbefore; by right.
        * destruct (Hbefore x); [by left|done..]. }
  split; [done|]. intros x. rewrite Hres.
  apply check_enabled_subseteq.
Qed.

Lemma stopped_services_scan_ends_at_exception_witness :
  Linux.get_stopped_automatic_services (fun l => l)
    (fun s => if bool_decide (s = "b.service") then None else Some "failed")
    (Some ("a.service enabled" +:+ String PyStr.nl "b.service enabled"
           +:+ String PyStr.nl "c.service enabled"))
    None
  = Linux.check_enabled
      (fun s => if bool_decide (s = "b.service") then None else Some "failed")
      Linux.DEFAULT_IGNORE_SERVICES ["a.service"] [].
Proof.
  refine (proj1 (stopped_services_scan_ends_at_exception (fun l => l)
    (fun s => if bool_decide (s = "b.service") then None else Some "failed")
    _ None ["a.service"] ["c.service"] "b.service" _ _ _ _)).
  - reflexivity.
  - reflexivity.
  - reflexivity.
  - intros x Hx _. apply list_elem_of_singleton in Hx as ->. discriminate.
Defined.

(** ** Cluster state of the appliance agent *)

Lemma occurs_cons sub c s : PyStr.occurs sub s -> PyStr.occurs sub (String c s).
Proof. intros (pre & post & ->). by exists (String c pre), post. Qed.

Lemma occurs_trans a b c :
  PyStr.occurs a b -> PyStr.occurs b c -> PyStr.occurs a c.
Proof.
  intros (p1 & q1 & ->) (p2 & q2 & ->).
  exists (p2 +:+ p1), (q1 +:+ q2).
  induction p2 as [|x p2 IH]; [|by rewrite !string_app_cons, IH].
  change ("" +:+ p1) with p1.
  change ("" +:+ (p1 +:+ a +:+ q1) +:+ q2) with ((p1 +:+ a +:+ q1) +:+ q2).
  clear. induction p1 as [|x p1 IH]; [|by rewrite !string_app_cons, IH].
  change ("" +:+ a +:+ q1) with (a +:+ q1).
  change ("" +:+ a +:+ q1 +:+ q2) with (a +:+ q1 +:+ q2).
  induction a as [|x a IH]; [done|]. by rewrite !string_app_cons, IH.
Qed.

Lemma split_char_occurs c s :
  (exists b bs post, PyStr.split_char c s = b :: bs /\ s = b +:+ post)
  /\ forall line, line ∈ PyStr.split_char c s -> PyStr.occurs line s.
Proof.
  induction s as [|a s [(b & bs & post & Hsplit & Hs) IH]]; simpl.
  - split; [by exists "", [], ""|].
    intros line ->%list_elem_of_singleton. by exists "", "".
  - destruct (Ascii.eqb a c).
    + split; [by exists "", (PyStr.split_char c s), (String a s)|].
      intros line [->|Hin]%elem_of_cons.
      * by exists "", (String a s).
      * by apply occurs_cons, IH.
    + rewrite Hsplit. split.
      * exists (String a b), bs, post. by rewrite string_app_cons, <-Hs.
      * intros line [->|Hin]%elem_of_cons.
        -- exists "", post. by rewrite Hs.
        -- apply occurs_cons, IH. rewrite Hsplit. by right.
Qed.

Lemma local_row_state_none capitalize lines :
  (forall line, line ∈ lines -> PyStr.contains line "(local)" = false) ->
  Checkpoint.local_row_state capitalize lines = None.
Proof.
  induction lines as [|line lines IH]; intros H; simpl; [done|].
  rewrite (H line) by by left. apply IH. intros l Hl. apply H. by right.
Qed.

Lemma contains_false s sub : ~ PyStr.occurs sub s -> PyStr.contains s sub = false.
Proof.
  intros H. destruct (PyStr.contains s sub) eqn:E; [|done].
  by apply contains_spec in E.
Qed.

(** X14.  When the output of the cluster probe has neither a [State:] field nor a
    row marked [(local)], the state is read off two words: [Active] if that
    word occurs, else [Standby] if that one does, else [Unknown]; and with
    [Unknown], as for an empty output, the run is classified error whatever
    the metrics. *)
Theorem cluster_state_fallback (capitalize : string -> string) (output : string) :
  ~ PyStr.occurs "State:" output ->
  ~ PyStr.occurs "(local)" output ->
  let state := Checkpoint.get_cluster_state capitalize output in
  (PyStr.occurs "Active" output -> state = "Active")
  /\ (~ PyStr.occurs "Active" output -> PyStr.occurs "Standby" output ->
      state = "Standby")
  /\ (~ PyStr.occurs "Active" output -> ~ PyStr.occurs "Standby" output ->
      state = "Unknown"
      /\ forall cpu mx mem errors heavy w e,
          Checkpoint.calculate_severity cpu mx mem state errors heavy w e
          = "error").
Proof.
  intros Hstate Hlocal state.
  assert (Hs : state
    = if PyStr.contains output "Active" then "Active"
      else if PyStr.contains output "Standby" then "Standby" else "Unknown").
  { unfold state, Checkpoint.get_cluster_state.
    rewrite re_search_absent by done.
    rewrite local_row_state_none; [done|].
    intros line Hin. apply contains_false. intros Hocc. apply Hlocal.
    eapply occurs_trans; [exact Hocc|].
    by apply (split_char_occurs PyStr.nl output). }
  split; [|split].
  - intros H%contains_spec. by rewrite Hs, H.
  - intros Ha%contains_false H%contains_spec. by rewrite Hs, Ha, H.
  - intros Ha%contains_false Hb%contains_false.
    rewrite Hs, Ha, Hb. split; [done|].
    intros cpu mx mem errors heavy w e. by destruct errors, heavy.
Qed.

Lemma cluster_state_fallback_witness :
  Checkpoint.get_cluster_state (fun s => s)
    "cphaprob: command not found" = "Unknown"
  /\ forall cpu mx mem errors heavy w e,
      Checkpoint.calculate_severity cpu mx mem
        (Checkpoint.get_cluster_state (fun s => s)
           "cphaprob: command not found") errors heavy w e
      = "error".
Proof.
  apply (cluster_state_fallback (fun s => s) "cphaprob: command not found");
    intros H%contains_spec; discriminate H.
Defined.

(** ** Processors of the appliance agent *)

Lemma fold_left_invariant {A B} (P : A -> Prop) (f : A -> B -> A) l a :
  P a -> (forall a x, P a -> P (f a x)) -> P (fold_left f l a).
Proof.
  intros Ha Hf. revert a Ha. induction l as [|x l IH]; intros a Ha; simpl.
  - done.
  - apply IH. by apply Hf.
Qed.

Lemma float_le_trans a b c :
  float_le a b = true -> float_le b c = true -> float_le a c = true.
Proof.
  destruct a as [| |p|], b as [| |q|], c as [| |r|]; simpl; try done.
  rewrite !Qle_bool_iff. apply Qle_trans.
Qed.

Lemma float_le_refl a : a ≠ NaN -> float_le a a = true.
Proof.
  destruct a as [| |p|]; simpl; try done.
  intros _. apply Qle_bool_iff, Qle_refl.
Qed.

Lemma float_gt_le x m : float_gt x m = true -> float_le m x = true.
Proof.
  destruct x as [| |p|], m as [| |q|]; simpl; try done.
  rewrite negb_true_iff. intros H. apply Qle_bool_iff.
  destruct (Qlt_le_dec q p) as [Hlt|Hle]; [by apply Qlt_le_weak|].
  apply Qle_bool_iff in Hle. congruence.
Qed.

Lemma float_not_gt_le x m :
  x ≠ NaN -> m ≠ NaN -> float_gt x m = false -> float_le x m = true.
Proof.
  destruct x as [| |p|], m as [| |q|]; simpl; try done.
  intros _ _. by rewrite negb_false_iff.
Qed.

Lemma py_max_bounds m rest :
  m ≠ NaN -> Forall (fun x => x ≠ NaN) rest ->
  py_max m rest ≠ NaN
  /\ float_le m (py_max m rest) = true
  /\ Forall (fun x => float_le x (py_max m rest) = true) rest.
Proof.
  unfold py_max. revert m. induction rest as [|x rest IH]; intros m Hm Hrest.
  - simpl. split; [done|]. split; [by apply float_le_refl|constructor].
  - apply Forall_cons in Hrest as [Hx Hrest]. simpl.
    destruct (float_gt x m) eqn:Hgt.
    + destruct (IH x Hx Hrest) as (Hn & Hle & Hall).
      split; [done|]. split.
      * apply float_le_trans with x; [by apply float_gt_le|done].
      * by constructor.
    + destruct (IH m Hm Hrest) as (Hn & Hle & Hall).
      split; [done|]. split; [done|]. constructor; [|done].
      apply float_le_trans with m; [by apply float_not_gt_le|done].
Qed.

Lemma cpu_table_heavy parse_float float_str output w :
  let table := Checkpoint.cpu_table parse_float float_str output w in
  (table.2 = [] <-> Forall (fun u => ge_int u w = false) table.1)
  /\ (length table.2 <= length table.1)%nat.
Proof.
  unfold Checkpoint.cpu_table.
  apply fold_left_invariant.
  - simpl. split; [|done]. split; [constructor|done].
  - intros [cpus heavy] line [Hiff Hlen]. simpl in Hiff, Hlen.
    destruct (negb _ || _); [done|].
    destruct (6 <=? _)%nat; [|done].
    destruct (_ !! 1%nat) as [id_text|]; [|done].
    destruct (_ !! 5%nat) as [usage_text|]; [|done].
    destruct (parse_float _) as [usage|]; [|done]. simpl.
    rewrite Forall_app, Forall_singleton, length_app. simpl.
    destruct (ge_int usage w) eqn:Hge.
    + rewrite length_app. simpl. split; [|lia]. split.
      * by intros ?%app_eq_nil%proj2.
      * by intros [_ ?].
    + split; [|lia]. rewrite Hiff. tauto.
Qed.

(** X13.  When the table of processors gives rows and none of the figures read is
    NaN: a heavy processor is listed exactly when some figure reaches the
    warning threshold, there is at most one entry per row, and with a heavy
    processor listed the maximum reaches the threshold, so that the verdict
    of the run is never ok, whatever the average. *)
Theorem heavy_cpu_is_flagged
    (parse_float : string -> option pyfloat) (float_str : pyfloat -> string)
    (rounded_mean : list pyfloat -> pyfloat)
    (fallback : pyfloat * pyfloat * list string)
    (output : string) (w : Z) :
  let table := Checkpoint.cpu_table parse_float float_str output w in
  let usage :=
    Checkpoint.get_cpu_usage parse_float float_str rounded_mean fallback
      output w in
  table.1 ≠ [] ->
  Forall (fun u => u ≠ NaN) table.1 ->
  usage.2 = table.2
  /\ usage.1.1 = rounded_mean table.1
  /\ (usage.2 ≠ [] <-> Exists (fun u => ge_int u w = true) table.1)
  /\ (length usage.2 <= length table.1)%nat
  /\ Forall (fun u => float_le u usage.1.2 = true) table.1
  /\ (usage.2 ≠ [] ->
      ge_int usage.1.2 w = true
      /\ forall mem st errors heavy e,
          Checkpoint.calculate_severity usage.1.1 usage.1.2 mem st errors
            heavy w e ≠ "ok").
Proof.
  intros table usage Hrows Hnan.
  pose proof (cpu_table_heavy parse_float float_str output w) as [Hiff Hlen].
  cbv zeta in Hiff, Hlen. fold table in Hiff, Hlen.
  assert (Hu : usage
    = match table.1 with
      | first :: rest => (rounded_mean table.1, py_max first rest, table.2)
      | [] => fallback
      end).
  { unfold usage, Checkpoint.get_cpu_usage. fold table. by destruct table. }
  destruct (table.1) as [|first rest] eqn:Hcpus; [done|].
  rewrite Hu. simpl.
  apply Forall_cons in Hnan as [Hfirst Hrest].
  destruct (py_max_bounds first rest Hfirst Hrest) as (_ & Hle & Hall).
  assert (Hex : table.2 ≠ [] <->
                Exists (fun u => ge_int u w = true) (first :: rest)).
  { split.
    - intros Hne.
      destruct (decide (Exists (fun u => ge_int u w = true) (first :: rest)))
        as [|Hno]; [done|].
      destruct Hne. apply Hiff.
      apply (not_Exists_Forall _) in Hno.
      eapply Forall_impl; [exact Hno|]. intros u Hu'. simpl in Hu'.
      by destruct (ge_int u w).
    - intros Hex Hnil. apply Hiff in Hnil.
      apply Exists_exists in Hex as (u & Hin & Hge).
      eapply Forall_forall in Hnil; [|exact Hin]. congruence. }
  split; [done|]. split; [done|]. split; [done|]. split; [done|].
  split; [by constructor|].
  intros Hheavy. apply Hex in Hheavy.
  assert (Hmax : ge_int (py_max first rest) w = true).
  { apply Exists_exists in Hheavy as (u & Hin & Hge).
    eapply ge_int_mono; [|exact Hge].
    apply elem_of_cons in Hin as [->|Hin]; [done|].
    by eapply Forall_forall in Hall. }
  split; [done|]. intros mem st errors heavy e.
  rewrite checkpoint_severity_max. unfold Checkpoint.rules.
  rewrite max_of_cons. intros H. apply (severity_name_inj _ SevOk) in H.
  unfold Checkpoint.rule_cpu in H. rewrite Hmax in H.
  rewrite orb_true_r in H.
  destruct (_ || _) in H; by destruct (max_of _) in H.
Qed.

Lemma heavy_cpu_is_flagged_witness :
  let parse_float := fun s : string =>
    if bool_decide (s = "90") then Some (Finite 90)
    else if bool_decide (s = "3") then Some (Finite 3) else None in
  let output :=
    "|CPU#|User Time(%)|System Time(%)|Idle Time(%)|Usage(%)|Run queue|"
    +:+ String PyStr.nl "|   1|  1|  2| 97|  3|  ?|"
    +:+ String PyStr.nl "|   2| 80| 10| 10| 90|  ?|" in
  let usage :=
    Checkpoint.get_cpu_usage parse_float (fun _ => "90.0")
      (fun _ => Finite 46.5) (Finite 0, Finite 0, []) output 85 in
  ge_int usage.1.2 85 = true
  /\ forall mem st errors heavy e,
      Checkpoint.calculate_severity usage.1.1 usage.1.2 mem st errors heavy
        85 e ≠ "ok".
Proof.
  intros parse_float output usage.
  refine (proj2 (proj2 (proj2 (proj2 (proj2
    (heavy_cpu_is_flagged parse_float (fun _ => "90.0")
       (fun _ => Finite 46.5) (Finite 0, Finite 0, []) output 85 _ _))))) _).
  - vm_compute. discriminate.
  - vm_compute. repeat constructor; discriminate.
  - vm_compute. discriminate.
Defined.

(** ** One report per device block *)

Lemma device_report_length block :
  (length (Checkpoint.device_report block) <= 1)%nat.
Proof.
  unfold Checkpoint.device_report.
  destruct (Checkpoint.field "Device Name:" block); [|simpl; lia].
  destruct (Checkpoint.field "State:" block); [|simpl; lia].
  case_bool_decide; simpl; lia.
Qed.

Lemma concat_reports_length blocks :
  (length (concat (map Checkpoint.device_report blocks)) <= length blocks)%nat.
Proof.
  induction blocks as [|b blocks IH]; simpl; [lia|].
  rewrite length_app. pose proof (device_report_length b). lia.
Qed.

Lemma split_nlnl_single s :
  PyStr.has_blank s = false -> PyStr.split_nlnl s = [s].
Proof.
  enough (forall s,
    (PyStr.has_blank s = false -> PyStr.split_nlnl s = [s])
    /\ forall c, PyStr.has_blank (String c s) = false ->
                 PyStr.split_nlnl (String c s) = [String c s]) as H
    by apply H.
  clear s. induction s as [|a s [IH1 IH2]].
  - by split.
  - split; [apply IH2|]. intros c.
    change (PyStr.has_blank (String c (String a s)))
      with ((Ascii.eqb c PyStr.nl && Ascii.eqb a PyStr.nl)
            || PyStr.has_blank (String a s)).
    change (PyStr.split_nlnl (String c (String a s)))
      with (if Ascii.eqb c PyStr.nl && Ascii.eqb a PyStr.nl
            then "" :: PyStr.split_nlnl s
            else PyStr.cons_head c (PyStr.split_nlnl (String a s))).
    intros [Hsep Hrest]%orb_false_iff. rewrite Hsep.
    by rewrite (IH2 a Hrest).
Qed.

Lemma has_blank_occurs s : PyStr.has_blank s = true -> PyStr.occurs PyStr.blank s.
Proof.
  induction s as [|c s IH]; [done|].
  destruct s as [|c' s]; [done|].
  change (PyStr.has_blank (String c (String c' s)))
    with ((Ascii.eqb c PyStr.nl && Ascii.eqb c' PyStr.nl)
          || PyStr.has_blank (String c' s)).
  intros [Hsep|Hrest]%orb_true_iff.
  - apply andb_true_iff in Hsep as [H1 H2].
    apply Ascii.eqb_eq in H1 as ->. apply Ascii.eqb_eq in H2 as ->.
    by exists "", s.
  - by apply occurs_cons, IH.
Qed.

(** X16.  A device block gives at most one error: there are never more errors
    than blocks, and a text in which no two line feeds follow each other
    gives at most one error however many devices it describes, the one of
    the first [Device Name:] and first [State:] found in it. *)
Theorem one_error_per_block (output : string) :
  (length (Checkpoint.get_errors output)
   <= length (PyStr.split_nlnl output))%nat
  /\ (~ PyStr.occurs PyStr.blank output ->
      Checkpoint.get_errors output = Checkpoint.device_report output
      /\ (length (Checkpoint.get_errors output) <= 1)%nat).
Proof.
  rewrite get_errors_concat. split; [apply concat_reports_length|].
  intros Hno.
  assert (PyStr.has_blank output = false) as Hb.
  { destruct (PyStr.has_blank output) eqn:E; [|done].
    by apply has_blank_occurs in E. }
  rewrite split_nlnl_single by done. simpl. rewrite app_nil_r.
  split; [done|apply device_report_length].
Qed.

Lemma one_error_per_block_witness :
  let output :=
    "Device Name: Sync" +:+ String PyStr.nl "State: OK"
    +:+ String PyStr.nl "Device Name: Filter"
    +:+ String PyStr.nl "State: DOWN" in
  Checkpoint.get_errors output = Checkpoint.device_report output
  /\ (length (Checkpoint.get_errors output) <= 1)%nat.
Proof.
  intros output. apply (proj2 (one_error_per_block output)).
  intros H%occurs_blank. discriminate H.
Defined.

Example failure_hidden_without_blank_line :
  Checkpoint.get_errors
    ("Device Name: Sync" +:+ String PyStr.nl "State: OK"
     +:+ String PyStr.nl "Device Name: Filter"
     +:+ String PyStr.nl "State: DOWN")
  = [].
Proof. reflexivity. Qed.

(** ** The default ignore list *)

Lemma should_ignore_exact ignore_list u :
  forallb (fun p => negb (PyStr.endswith_char p "*")) ignore_list = true ->
  Linux.should_ignore ignore_list u = bool_decide (u ∈ ignore_list).
Proof.
  induction ignore_list as [|p l IH]; simpl.
  - done.
  - intros [Hp Hl]%andb_true_iff. apply negb_true_iff in Hp. rewrite Hp.
    destruct (decide (p = u)) as [->|Hne].
    + rewrite (bool_decide_eq_true_2 (u = u)) by done.
      symmetry. apply bool_decide_eq_true_2. by left.
    + rewrite (bool_decide_eq_false_2 (p = u)) by done.
      rewrite (IH Hl). apply bool_decide_ext.
      rewrite elem_of_cons. intuition congruence.
Qed.

Lemma should_ignore_default u :
  Linux.should_ignore Linux.DEFAULT_IGNORE_SERVICES u
  = bool_decide (u ∈ Linux.DEFAULT_IGNORE_SERVICES).
Proof. by apply should_ignore_exact. Qed.

(** X8.  None of the default patterns ends in a star, so when no ignore list is
    given the units left out are exactly those whose name is one of the
    eight default names; a unit whose name only starts with one of them is
    kept. *)
Theorem default_ignore_list_is_exact (stdout : string) :
  Linux.get_failed_services (Some stdout) None
  = List.filter (fun u => bool_decide (u ∉ Linux.DEFAULT_IGNORE_SERVICES))
      (Linux.reported_units stdout).
Proof.
  rewrite get_failed_services_filter. apply List.filter_ext.
  intros u. simpl default. rewrite should_ignore_default.
  by case_bool_decide; case_bool_decide.
Qed.

Example default_ignore_is_not_a_prefix :
  Linux.get_failed_services
    (Some ("apt-daily.timer loaded failed failed Daily apt"
           +:+ String PyStr.nl
             "apt-daily.timer.d loaded failed failed Something else"))
    None
  = ["apt-daily.timer.d"].
Proof. reflexivity. Qed.
